(** * French Tax Assistant 2024: the extraction-validation pipeline of [app1.py]

    A shallow embedding of the pure core of [src/app1.py]:
    [normalize_code], [safe_parse_json], [validate_and_clean_data],
    [create_json_output], the [.txt] branch of [extract_text_from_file] and
    the part of [main] that chains the parser and the validator.

    Python values are an inductive type, Python [str] is a list of Unicode
    code points, Python [float] is IEEE 754 binary64 as specified by the
    Standard Library's [SpecFloat], a raised exception is the [Raise]
    constructor of [result].  What belongs to the Python runtime or to a
    third-party package and rests on large tables (the non-ASCII part of
    [str.upper], [float(str)], [str(value)], [json.loads], [re.search]) is a
    [Variable] of the section: every statement holds for any such function. *)

From Stdlib Require Import ZArith NArith List Lia Bool.
From Stdlib Require Import Strings.String Strings.Ascii Strings.Byte.
From Stdlib Require Import Floats.SpecFloat.
Import ListNotations.

Set Warnings "-register-all".

(** ** Python [str]: a sequence of code points *)

Definition pystr := list N.

Fixpoint pystr_eqb (a b : pystr) : bool :=
  match a, b with
  | [], [] => true
  | x :: a', y :: b' => N.eqb x y && pystr_eqb a' b'
  | _, _ => false
  end.

(** [bytes.decode("utf-8", errors="ignore")].  [utf8_head] recognises the
    well-formed sequence (Unicode table 3-7: no overlong form, no surrogate,
    nothing above U+10FFFF) at the head of the bytes; a byte that starts no
    such sequence is skipped, which is what the [ignore] handler does. *)

Definition in_range (lo hi b : N) : bool := N.leb lo b && N.leb b hi.

Definition is_cont (b : N) : bool := in_range 128 191 b.

Definition second_ok (b0 b1 : N) : bool :=
  if N.eqb b0 224 then in_range 160 191 b1
  else if N.eqb b0 237 then in_range 128 159 b1
  else if N.eqb b0 240 then in_range 144 191 b1
  else if N.eqb b0 244 then in_range 128 143 b1
  else is_cont b1.

Definition utf8_head (bs : list N) : option (N * nat) :=
  match bs with
  | [] => None
  | b0 :: rest =>
      if N.ltb b0 128 then Some (b0, 1%nat)
      else if in_range 194 223 b0 then
        match rest with
        | b1 :: _ =>
            if is_cont b1 then Some ((b0 - 192) * 64 + (b1 - 128), 2%nat)
            else None
        | _ => None
        end
      else if in_range 224 239 b0 then
        match rest with
        | b1 :: b2 :: _ =>
            if second_ok b0 b1 && is_cont b2
            then Some ((b0 - 224) * 4096 + (b1 - 128) * 64 + (b2 - 128), 3%nat)
            else None
        | _ => None
        end
      else if in_range 240 244 b0 then
        match rest with
        | b1 :: b2 :: b3 :: _ =>
            if second_ok b0 b1 && is_cont b2 && is_cont b3
            then Some ((b0 - 240) * 262144 + (b1 - 128) * 4096
                       + (b2 - 128) * 64 + (b3 - 128), 4%nat)
            else None
        | _ => None
        end
      else None
  end%N.

(** [skip] counts the continuation bytes of the sequence decoded last that
    are still to be passed over. *)
Fixpoint decode_from (skip : nat) (bs : list N) : pystr :=
  match bs with
  | [] => []
  | _ :: rest =>
      match skip with
      | S k => decode_from k rest
      | O =>
          match utf8_head bs with
          | Some (cp, n) => cp :: decode_from (Nat.pred n) rest
          | None => decode_from 0 rest
          end
      end
  end.

Definition decode_utf8_ignore (bs : list N) : pystr := decode_from 0 bs.

(** A string literal of this file, read as the UTF-8 text it is. *)
Definition u (s : string) : pystr :=
  decode_utf8_ignore (map Byte.to_N (list_byte_of_string s)).

(** [x in s] for two strings. *)
Fixpoint startswith (p s : pystr) : bool :=
  match p, s with
  | [], _ => true
  | x :: p', y :: s' => N.eqb x y && startswith p' s'
  | _ :: _, [] => false
  end.

Fixpoint contains (p s : pystr) : bool :=
  startswith p s || match s with [] => false | _ :: s' => contains p s' end.

(** [str.isspace] for one code point ([Py_UNICODE_ISSPACE]). *)
Definition is_space (c : N) : bool :=
  (in_range 9 13 c || in_range 28 32 c || N.eqb c 133 || N.eqb c 160
   || N.eqb c 5760 || in_range 8192 8202 c || N.eqb c 8232 || N.eqb c 8233
   || N.eqb c 8239 || N.eqb c 8287 || N.eqb c 12288)%N.

Fixpoint lstrip (s : pystr) : pystr :=
  match s with
  | c :: s' => if is_space c then lstrip s' else s
  | [] => []
  end.

Definition strip (s : pystr) : pystr := rev (lstrip (rev (lstrip s))).

(** [sep.join(parts)]. *)
Fixpoint join (sep : pystr) (parts : list pystr) : pystr :=
  match parts with
  | [] => []
  | [p] => p
  | p :: rest => p ++ sep ++ join sep rest
  end.

(** [s.replace(",", ".")] and [s.replace(" ", "")]. *)
Definition replace_comma_by_dot (s : pystr) : pystr :=
  map (fun c => if N.eqb c 44 then 46%N else c) s.

Definition remove_spaces (s : pystr) : pystr :=
  filter (fun c => negb (N.eqb c 32)) s.

(** ** Python [float]: binary64 *)

Definition float := spec_float.
Definition prec : Z := 53.
Definition emax : Z := 1024.

Definition float_mul : float -> float -> float := SFmul prec emax.

(** The double nearest to [(-1)^s * n * 10^e10] (ties to even): how a
    decimal literal is read, and what [strtod] returns. *)
Definition float_of_decimal (s : bool) (n : positive) (e10 : Z) : float :=
  match e10 with
  | Z0 => binary_round prec emax s n 0
  | Zpos p => binary_round prec emax s (n * Pos.pow 10 p) 0
  | Zneg p =>
      SFdiv prec emax (S754_finite s n 0) (S754_finite false (Pos.pow 10 p) 0)
  end.

(** [bool(x)] for a float: every value but the two zeros. *)
Definition float_truthy (x : float) : bool :=
  match x with
  | S754_zero _ => false
  | _ => true
  end.

(** Division of [n] by [d > 0] to the nearest integer, ties to even. *)
Definition div_half_even (n d : Z) : Z :=
  let q := Z.div n d in
  let r := Z.modulo n d in
  match Z.compare (2 * r) d with
  | Lt => q
  | Gt => q + 1
  | Eq => if Z.even q then q else q + 1
  end%Z.

(** The hundredths [round(x, 2)] settles on, for [x = m * 2^e > 0]. *)
Definition hundredths (m : positive) (e : Z) : Z :=
  match e with
  | Zneg p => div_half_even (Zpos m * 100) (Zpos (Pos.pow 2 p))
  | _ => (Zpos m * 100 * 2 ^ e)%Z
  end.

(** [round(x, 2)] on a float (CPython's [double_round]): the exact value of
    [x] is rounded to the nearest multiple of 1/100, ties to the even
    multiple, and that decimal is read back as a double.  Zeros, infinities
    and NaN round to themselves. *)
Definition py_round2 (x : float) : float :=
  match x with
  | S754_finite s m e =>
      match hundredths m e with
      | Zpos q => float_of_decimal s q (-2)
      | _ => S754_zero s
      end
  | _ => x
  end.

(** ** Python values and exceptions *)

(** What [json.loads] can return, which is also all an entry can hold. *)
Inductive pyval : Type :=
  | PNone
  | PBool (b : bool)
  | PInt (z : Z)
  | PFloat (f : float)
  | PStr (s : pystr)
  | PList (l : list pyval)
  | PDict (d : list (pystr * pyval)).

(** A [dict] with [str] keys, in insertion order: assigning to a key that is
    present replaces its value in place, to a new key appends it. *)
Definition dict (V : Type) := list (pystr * V).

Fixpoint dict_get {V} (d : dict V) (k : pystr) : option V :=
  match d with
  | [] => None
  | (k', v) :: d' => if pystr_eqb k' k then Some v else dict_get d' k
  end.

Fixpoint dict_set {V} (d : dict V) (k : pystr) (v : V) : dict V :=
  match d with
  | [] => [(k, v)]
  | (k', v') :: d' =>
      if pystr_eqb k' k then (k, v) :: d' else (k', v') :: dict_set d' k v
  end.


(** [k in d]. *)
Definition dict_mem {V} (d : dict V) (k : pystr) : bool :=
  match dict_get d k with Some _ => true | None => false end.

(** [d.get(k, default)]. *)
Definition dict_get_default {V} (d : dict V) (k : pystr) (default : V) : V :=
  match dict_get d k with Some v => v | None => default end.

Inductive exn : Type :=
  | TypeError | AttributeError | ValueError | OverflowError | KeyError.

Inductive result (A : Type) : Type :=
  | Ok (a : A)
  | Raise (e : exn).
Arguments Ok {A} a.
Arguments Raise {A} e.

Definition bind {A B} (r : result A) (k : A -> result B) : result B :=
  match r with
  | Ok a => k a
  | Raise e => Raise e
  end.

Notation "x <- e ;; k" := (bind e (fun x => k))
  (at level 61, e at next level, right associativity).
Notation "' p <- e ;; k" := (bind e (fun x => match x with p => k end))
  (at level 61, p pattern, e at next level, right associativity).

(** [bool(v)]. *)
Definition truthy (v : pyval) : bool :=
  match v with
  | PNone => false
  | PBool b => b
  | PInt z => negb (Z.eqb z 0)
  | PFloat f => float_truthy f
  | PStr s => match s with [] => false | _ => true end
  | PList l => match l with [] => false | _ => true end
  | PDict d => match d with [] => false | _ => true end
  end.

(** An [int] as a [float]: the nearest double, ties to even;
    [OverflowError] when that would be an infinity. *)
Definition float_of_int (z : Z) : result float :=
  match binary_normalize prec emax z 0 false with
  | S754_infinity _ => Raise OverflowError
  | f => Ok f
  end.

Definition float_of_bool (b : bool) : float :=
  if b then float_of_decimal false 1 0 else S754_zero false.

(** [v * rate] for a float [rate]: a number is converted and multiplied,
    anything else raises (a sequence is not multiplied by a float). *)
Definition py_mul_float (v : pyval) (rate : float) : result float :=
  match v with
  | PInt z => f <- float_of_int z ;; Ok (float_mul f rate)
  | PBool b => Ok (float_mul (float_of_bool b) rate)
  | PFloat f => Ok (float_mul f rate)
  | _ => Raise TypeError
  end.

(** [v == ""]. *)
Definition is_empty_str (v : pyval) : bool :=
  match v with
  | PStr [] => true
  | _ => false
  end.

(** [v.strip()], [v.upper()]: only a [str] has the method. *)
Definition as_str (v : pyval) : result pystr :=
  match v with
  | PStr s => Ok s
  | _ => Raise AttributeError
  end.

(** ** Constants of the module *)

(** The currency table.  [default_rates] is the literal of the source; the
    sidebar of [main] overwrites the rate of every currency but EUR before a
    run, so the validator takes the table as an argument. *)
Definition rates := dict float.

Definition default_rates : rates :=
  [ (u "GBP", float_of_decimal false 11812 (-4));
    (u "USD", float_of_decimal false 9204 (-4));
    (u "CHF", float_of_decimal false 10418 (-4));
    (u "CAD", float_of_decimal false 6812 (-4));
    (u "EUR", float_of_decimal false 10000 (-4)) ].

Definition TAX_CODES : dict (dict pystr) :=
  [ (u "2042",
      [ (u "1AJ", u "Salaries - Declarant 1");
        (u "1BJ", u "Salaries - Declarant 2");
        (u "1AP", u "Pensions, Retirement - Declarant 1");
        (u "1BP", u "Pensions, Retirement - Declarant 2");
        (u "2TR", u "Interest income subject to flat tax (PFU)");
        (u "2TS", u "Interest from regulated savings accounts (Livret A, etc.)");
        (u "2BH", u "French bank interest - Declarant 1");
        (u "2CH", u "French bank interest - Declarant 2");
        (u "2DC", u "Dividends subject to progressive tax");
        (u "2EE", u "Capital gains on securities");
        (u "5HQ", u "Micro-entrepreneur/Auto-entrepreneur income");
        (u "5KO", u "Miscellaneous income - Declarant 1");
        (u "5LO", u "Miscellaneous income - Declarant 2");
        (u "5TE", u "Micro-BIC income (Chambre d'hôte/gites)");
        (u "7DB", u "Energy production credits (solar panels, etc.)");
        (u "7DQ", u "Energy equipment installations (tax credit)") ]);
    (u "2044",
      [ (u "4BA", u "Gross rental income");
        (u "4BB", u "Property tax paid");
        (u "4BC", u "Deductible interest on loans");
        (u "4BH", u "Property expenses");
        (u "4BK", u "Property management fees");
        (u "4BL", u "Insurance premiums") ]);
    (u "2047",
      [ (u "1AF", u "Foreign pensions - Declarant 1");
        (u "1BF", u "Foreign pensions - Declarant 2");
        (u "1AG", u "Government/Civil Service pensions - Declarant 1");
        (u "1BG", u "Government/Civil Service pensions - Declarant 2");
        (u "2AB", u "Foreign dividends");
        (u "2BG", u "Foreign interest income - Declarant 1");
        (u "2CG", u "Foreign interest income - Declarant 2");
        (u "3VG", u "Foreign capital gains");
        (u "3VH", u "Foreign capital gains exempt but used for rate calculation") ]);
    (u "3916",
      [ (u "8UU", u "Foreign bank account - Country code");
        (u "8TK", u "Foreign bank account - Account number");
        (u "8QS", u "Foreign bank account - Name of institution");
        (u "8RT", u "Foreign bank account - Full address");
        (u "8QU", u "Foreign bank account - Account type (current/savings)") ]);
    (u "2086",
      [ (u "AK", u "Professional expenses - Declarant 1");
        (u "BK", u "Professional expenses - Declarant 2");
        (u "WW", u "Home-to-work distance (km)") ]) ].

(** The keys of an income entry. *)
Definition k_description : pystr := u "Description".
Definition k_form : pystr := u "Form".
Definition k_code : pystr := u "Code".
Definition k_source_currency : pystr := u "Source Currency".
Definition k_amount_source : pystr := u "Amount (Source)".
Definition k_amount_eur : pystr := u "Amount (€)".
Definition k_taxable_france : pystr := u "Taxable in France (€)".
Definition k_taxable_source : pystr := u "Taxable in Source Country (€)".
Definition k_notes : pystr := u "Notes".
Definition k_valid_code : pystr := u "Valid Code".
Definition k_code_description : pystr := u "Code Description".
Definition k_abatement_amount : pystr := u "Abatement Amount".
Definition k_after_abatement : pystr := u "Taxable in France (€) After Abatement".

Definition required_fields : list pystr :=
  [k_description; k_form; k_code; k_source_currency; k_amount_source].

(** The abatement rates [0.71] and [0.29], as the doubles the literals denote. *)
Definition abatement_rate : float := float_of_decimal false 71 (-2).
Definition taxable_share : float := float_of_decimal false 29 (-2).

Definition micro_bic_note : pystr := u " Micro-BIC regime, 71% abatement applies.".

(** ** Warnings

    One constructor per f-string the validator appends to
    [warning_messages]; the arguments are the interpolated values. *)
Inductive warning : Type :=
  | W_missing_fields (description : pyval) (missing : list pystr)
  | W_amount (amount : pystr) (description : pyval)
  | W_unknown_currency (currency : pystr) (description : pyval)
  | W_taxable (field value : pystr) (description : pyval)
  | W_unknown_code (code form : pystr) (description : pyval)
  | W_unknown_form (form : pystr) (description : pyval).

Section Pipeline.

(** The Python runtime, where it rests on tables of the Unicode database or
    on a number grammar:
    - [upper_nonascii c]: the uppercase mapping of a code point above
      U+007F (one to three code points);
    - [float_of_str s]: [float(s)] for a [str], [None] for [ValueError];
    - [str_of_value v]: [str(v)] for a value that is not a [str]. *)
Variable upper_nonascii : N -> list N.
Variable float_of_str : pystr -> option float.
Variable str_of_value : pyval -> pystr.

(** ** [normalize_code] *)

(** [str.upper] *)
Definition upper_char (c : N) : list N :=
  if in_range 97 122 c then [(c - 32)%N]
  else if N.ltb c 128 then [c]
  else upper_nonascii c.

Definition upper (s : pystr) : pystr := flat_map upper_char s.

(** The character class [[0-9A-Z]]. *)
Definition is_digit_or_capital (c : N) : bool :=
  in_range 48 57 c || in_range 65 90 c.

(** [re.sub(r"[^0-9A-Z]", "", code.upper())] *)
Definition normalize_code (code : pystr) : pystr :=
  filter is_digit_or_capital (upper code).

(** ** [validate_and_clean_data] *)

(** [float(v)] *)
Definition py_float (v : pyval) : result float :=
  match v with
  | PInt z => float_of_int z
  | PBool b => Ok (float_of_bool b)
  | PFloat f => Ok f
  | PStr s =>
      match float_of_str s with
      | Some f => Ok f
      | None => Raise ValueError
      end
  | _ => Raise TypeError
  end.

(** [v + suffix] for a [str] suffix. *)
Definition py_add_str (v : pyval) (suffix : pystr) : result pystr :=
  match v with
  | PStr s => Ok (s ++ suffix)
  | _ => Raise TypeError
  end.

(** [d[k]] *)
Definition dict_item {V} (d : dict V) (k : pystr) : result V :=
  match dict_get d k with
  | Some v => Ok v
  | None => Raise KeyError
  end.

(** [entry.get('Description', 'Unknown')] *)
Definition description_of (entry : dict pyval) : pyval :=
  dict_get_default entry k_description (PStr (u "Unknown")).

(** [float(s.replace(",", ".").replace(" ", ""))] *)
Definition to_number (s : pystr) : option float :=
  float_of_str (remove_spaces (replace_comma_by_dot s)).

Definition missing_fields (entry : dict pyval) : list pystr :=
  filter (fun field => negb (dict_mem entry field)) required_fields.

(** Lines 336-341: the source amount as a number, and the warning appended
    when it is a string that is not one. *)
Definition coerce_source_amount (entry : dict pyval) (source_amount : pyval)
  : pyval * list warning :=
  match source_amount with
  | PStr s =>
      match to_number s with
      | Some f => (PFloat f, [])
      | None => (PInt 0, [W_amount s (description_of entry)])
      end
  | _ => (source_amount, [])
  end.

(** Lines 346-354: the entry with its EUR amount, and the warning appended. *)
Definition convert_to_eur (table : rates) (entry : dict pyval)
    (source_currency : pystr) (source_amount : pyval)
  : result (dict pyval * list warning) :=
  let one_to_one :=
    (dict_set entry k_amount_eur source_amount,
     [W_unknown_currency source_currency (description_of entry)]) in
  if negb (pystr_eqb source_currency (u "EUR")) then
    match dict_get table source_currency with
    | Some exchange_rate =>
        if float_truthy exchange_rate then
          product <- py_mul_float source_amount exchange_rate ;;
          Ok (dict_set entry k_amount_eur (PFloat (py_round2 product)), [])
        else Ok one_to_one
    | None => Ok one_to_one
    end
  else Ok (dict_set entry k_amount_eur source_amount, []).

(** Lines 358-365, for one of the two taxable-amount fields. *)
Definition clean_taxable_field (field : pystr) (entry : dict pyval)
  : dict pyval * list warning :=
  match dict_get entry field with
  | None => (dict_set entry field (PStr []), [])
  | Some v =>
      if is_empty_str v then (dict_set entry field (PStr []), [])
      else
        match v with
        | PStr s =>
            match to_number s with
            | Some f => (dict_set entry field (PFloat f), [])
            | None =>
                (dict_set entry field (PStr []),
                 [W_taxable field s (description_of entry)])
            end
        | _ => (entry, [])
        end
  end.

(** Lines 368-377; [form] and [code] are [entry["Form"]] and
    [entry["Code"]] as lines 328-329 left them. *)
Definition classify_code (entry : dict pyval) (form code : pystr)
  : dict pyval * list warning :=
  let invalid w :=
    (dict_set (dict_set entry k_valid_code (PBool false))
       k_code_description (PStr []), [w]) in
  match dict_get TAX_CODES form with
  | Some codes =>
      match dict_get codes code with
      | Some description =>
          (dict_set (dict_set entry k_valid_code (PBool true))
             k_code_description (PStr description), [])
      | None => invalid (W_unknown_code code form (description_of entry))
      end
  | None => invalid (W_unknown_form form (description_of entry))
  end.

(** Lines 380-386. *)
Definition special_rules (entry : dict pyval) (form code : pystr)
  : result (dict pyval) :=
  if pystr_eqb form (u "2042") && pystr_eqb code (u "5TE") then
    match dict_get entry k_taxable_france with
    | Some v =>
        if truthy v then
          raw_amount <- py_float v ;;
          let entry :=
            dict_set entry k_abatement_amount
              (PFloat (py_round2 (float_mul raw_amount abatement_rate))) in
          let entry :=
            dict_set entry k_after_abatement
              (PFloat (py_round2 (float_mul raw_amount taxable_share))) in
          notes <- py_add_str (dict_get_default entry k_notes (PStr []))
                     micro_bic_note ;;
          Ok (dict_set entry k_notes (PStr notes))
        else Ok entry
    | None => Ok entry
    end
  else Ok entry.

(** [x in l] for a string [x] and a list [l] of JSON values. *)
Definition list_has_str (x : pystr) (l : list pyval) : bool :=
  existsb (fun v => match v with PStr s => pystr_eqb s x | _ => false end) l.

(** One turn of the loop over [parsed_data] (lines 318-389): the entry to
    append to [valid_entries], if any, and the warnings to append to
    [warning_messages].  Only a [dict] gets through: a string or a list
    supports [in] but not [.get] or [entry["Form"]], the other values do not
    support [in]. *)
Definition process_entry (table : rates) (entry : pyval)
  : result (option (dict pyval) * list warning) :=
  match entry with
  | PDict entry =>
      match missing_fields entry with
      | (_ :: _) as missing =>
          Ok (None, [W_missing_fields (description_of entry) missing])
      | [] =>
          v <- dict_item entry k_form ;;
          form <- as_str v ;;
          let form := strip form in
          let entry := dict_set entry k_form (PStr form) in
          v <- dict_item entry k_code ;;
          code <- as_str v ;;
          let code := normalize_code code in
          let entry := dict_set entry k_code (PStr code) in
          v <- dict_item entry k_source_currency ;;
          currency <- as_str v ;;
          let source_currency := upper currency in
          let source_amount := dict_get_default entry k_amount_source (PInt 0) in
          let '(source_amount, w1) := coerce_source_amount entry source_amount in
          let entry := dict_set entry k_amount_source source_amount in
          '(entry, w2) <- convert_to_eur table entry source_currency source_amount ;;
          let '(entry, w3) := clean_taxable_field k_taxable_france entry in
          let '(entry, w4) := clean_taxable_field k_taxable_source entry in
          let '(entry, w5) := classify_code entry form code in
          entry <- special_rules entry form code ;;
          Ok (Some entry, w1 ++ w2 ++ w3 ++ w4 ++ w5)
      end
  | PStr s =>
      if forallb (fun field => contains field s) required_fields
      then Raise TypeError else Raise AttributeError
  | PList l =>
      if forallb (fun field => list_has_str field l) required_fields
      then Raise TypeError else Raise AttributeError
  | _ => Raise TypeError
  end.

Definition loop_state : Type := list (dict pyval) * list warning.

Definition loop_body (table : rates) (st : loop_state) (entry : pyval)
  : result loop_state :=
  let '(valid_entries, warning_messages) := st in
  '(kept, warns) <- process_entry table entry ;;
  match kept with
  | Some entry => Ok (valid_entries ++ [entry], warning_messages ++ warns)
  | None => Ok (valid_entries, warning_messages ++ warns)
  end.

Fixpoint run_loop (table : rates) (st : loop_state) (entries : list pyval)
  : result loop_state :=
  match entries with
  | [] => Ok st
  | entry :: rest => st' <- loop_body table st entry ;; run_loop table st' rest
  end.

(** [for entry in parsed_data]: what the loop iterates over. *)
Definition py_iter (v : pyval) : result (list pyval) :=
  match v with
  | PList l => Ok l
  | PStr s => Ok (map (fun c => PStr [c]) s)
  | PDict d => Ok (map (fun kv => PStr (fst kv)) d)
  | _ => Raise TypeError
  end.

Definition validate_and_clean_data (table : rates) (parsed_data : pyval)
  : result loop_state :=
  if negb (truthy parsed_data) then Ok ([], [])
  else entries <- py_iter parsed_data ;; run_loop table ([], []) entries.

(** The text of a warning. *)
Definition format_value (v : pyval) : pystr :=
  match v with
  | PStr s => s
  | _ => str_of_value v
  end.

Definition warning_text (w : warning) : pystr :=
  match w with
  | W_missing_fields description missing =>
      u "Entry '" ++ format_value description
        ++ u "' is missing required fields: " ++ join (u ", ") missing
  | W_amount amount description =>
      u "Could not convert amount '" ++ amount ++ u "' for '"
        ++ format_value description ++ u "' to a number"
  | W_unknown_currency currency description =>
      u "Unknown currency '" ++ currency ++ u "' for '"
        ++ format_value description ++ u "'. Using 1:1 exchange rate."
  | W_taxable field value description =>
      u "Could not convert " ++ field ++ u " '" ++ value ++ u "' for '"
        ++ format_value description ++ u "' to a number"
  | W_unknown_code code form description =>
      u "Unknown code '" ++ code ++ u "' for form '" ++ form ++ u "' - '"
        ++ format_value description ++ u "'"
  | W_unknown_form form description =>
      u "Unknown form '" ++ form ++ u "' for '"
        ++ format_value description ++ u "'"
  end.

(** ** [safe_parse_json] and the part of [main] that calls it *)

(** The two libraries the parser calls:
    - [json_loads s]: [json.loads(s)], [None] when it raises;
    - [search_fenced s]: group 1 of the first match in [s] of the pattern
      that looks for an array between a json code fence and the closing
      fence (line 294), [None] when there is no match;
    - [search_array s]: group 0 of the first match of the pattern for a
      bracketed list of braces (line 299). *)
Variable json_loads : pystr -> option pyval.
Variable search_fenced : pystr -> option pystr.
Variable search_array : pystr -> option pystr.

Definition json_fence : pystr := u "```json".

(** Lines 293-301: the text handed to [json.loads]. *)
Definition select_json_text (clean_output : pystr) : pystr :=
  if contains json_fence clean_output then
    match search_fenced clean_output with
    | Some group => group
    | None => clean_output
    end
  else if negb (startswith (u "[") clean_output) then
    match search_array clean_output with
    | Some group => group
    | None => clean_output
    end
  else clean_output.

(** [gpt_output] is a [str] or [None].  An exception is caught inside the
    function, which then returns [None]. *)
Definition safe_parse_json (gpt_output : option pystr) : pyval :=
  match gpt_output with
  | Some text =>
      if truthy (PStr text) && truthy (PStr (strip text)) then
        match json_loads (select_json_text (strip text)) with
        | Some parsed => parsed
        | None => PNone
        end
      else PList []
  | None => PList []
  end.


(** ** [create_json_output] *)

(** A DataFrame, by rows: one [dict] per row, over the columns of the frame.
    A column is the list of its values. *)
Definition DataFrame := list (dict pyval).

(** [df[column]] *)
Fixpoint df_column (df : DataFrame) (column : pystr) : result (list pyval) :=
  match df with
  | [] => Ok []
  | row :: rest =>
      v <- dict_item row column ;;
      vs <- df_column rest column ;;
      Ok (v :: vs)
  end.

(** [series.astype(str).str.strip()] *)
Definition astype_str_strip (series : list pyval) : list pystr :=
  map (fun v => strip (format_value v)) series.

(** ['' | series] for a column of strings.  [str] has no [|], so pandas
    answers through the reflected operator of the column, which applies [|]
    to each string in turn and raises [TypeError] at the first. *)
Definition str_or_series (left : pystr) (series : list pystr)
  : result (list bool) :=
  match series with
  | [] => Ok []
  | _ :: _ => Raise TypeError
  end.

(** [a != b] for a column [a] of strings and a column [b] of booleans, and
    [b != ''] for a column of booleans: no string equals a boolean. *)
Definition series_ne {A B} (a : list A) (b : B) : list bool :=
  map (fun _ => true) a.

(** [bool(series)]: pandas refuses to give a column a truth value. *)
Definition series_bool (series : list bool) : result bool := Raise ValueError.

(** [df[mask]] *)
Fixpoint df_filter (df : DataFrame) (mask : list bool) : DataFrame :=
  match df, mask with
  | row :: rest, keep :: mask' =>
      if keep then row :: df_filter rest mask' else df_filter rest mask'
  | _, _ => []
  end.

(** One record of the filing feed. *)
Record feed_record : Type := {
  feed_form : pyval;
  feed_code : pyval;
  feed_description : pyval;
  feed_value : pyval
}.

(** Lines 432-451, the loop over the rows the filter kept, with pandas's
    reading of a row.  No frame reaches it, see [create_json_output]. *)
Variable feed_of_rows : DataFrame -> list feed_record.

(** The value is the list that [json.dumps] serialises.  In line 427 [|]
    binds tighter than [!=], so Python reads the filter
    [a != '' | b != ''] as the chain [a != ('' | b) != ''], that is
    [(a != ('' | b)) and (('' | b) != '')]: it evaluates [a], then ['' | b],
    compares the two and takes the truth value of the comparison. *)
Definition create_json_output (df : DataFrame) : result (list feed_record) :=
  if Nat.eqb (List.length df) 0 then Ok []
  else
    france <- df_column df k_taxable_france ;;
    let a := astype_str_strip france in
    source <- df_column df k_taxable_source ;;
    let b := astype_str_strip source in
    middle <- str_or_series [] b ;;
    let first := series_ne a middle in
    first_holds <- series_bool first ;;
    let mask := if first_holds then series_ne middle (@nil N) else first in
    Ok (feed_of_rows (df_filter df mask)).

(** ** [extract_text_from_file] *)

(** The branches for PDF, Word, Excel and JSON files, each of which calls a
    reader of its own and returns [""] when the reader fails. *)
Variable read_with_library : pystr -> list byte -> pystr.

(** [suffix] is [Path(file.name).suffix.lower()], [data] is
    [file.getvalue()]. *)
Definition extract_text_from_file (suffix : pystr) (data : list byte) : pystr :=
  if pystr_eqb suffix (u ".txt") then
    decode_utf8_ignore (map Byte.to_N data)
  else if existsb (pystr_eqb suffix)
            [u ".pdf"; u ".docx"; u ".xlsx"; u ".xls"; u ".json"] then
    read_with_library suffix data
  else [].

(** ** The entries of the data model

    The specification types an income entry: form, code and currency are
    strings, the amounts are numbers (or numbers written as strings), the
    notes are text.  [well_typed] says so of a parsed JSON object; the
    required fields being there is [missing_fields entry = []]. *)

Definition is_str (v : pyval) : bool :=
  match v with PStr _ => true | _ => false end.

Definition is_none (v : pyval) : bool :=
  match v with PNone => true | _ => false end.

(** A number that [float] takes: an [int] beyond the doubles is not one. *)
Definition is_number (v : pyval) : bool :=
  match v with
  | PInt z => match float_of_int z with Ok _ => true | Raise _ => false end
  | PFloat _ | PBool _ => true
  | _ => false
  end.

Definition field_is (p : pyval -> bool) (entry : dict pyval) (k : pystr) : bool :=
  match dict_get entry k with Some v => p v | None => false end.

Definition field_absent_or (p : pyval -> bool) (entry : dict pyval) (k : pystr)
  : bool :=
  match dict_get entry k with Some v => p v | None => true end.

Definition well_typed (entry : dict pyval) : bool :=
  field_is is_str entry k_form
  && field_is is_str entry k_code
  && field_is is_str entry k_source_currency
  && field_is (fun v => is_str v || is_number v) entry k_amount_source
  && field_absent_or (fun v => is_str v || is_number v || is_none v)
       entry k_taxable_france
  && field_absent_or is_str entry k_notes.

(** The string held by a field ([""] when it holds none). *)
Definition str_field (entry : dict pyval) (k : pystr) : pystr :=
  match dict_get entry k with Some (PStr s) => s | _ => [] end.

(** What lines 328-343 compute from an entry. *)
Definition form_of (entry : dict pyval) : pystr := strip (str_field entry k_form).

Definition code_of (entry : dict pyval) : pystr :=
  normalize_code (str_field entry k_code).

Definition currency_of (entry : dict pyval) : pystr :=
  upper (str_field entry k_source_currency).

Definition amount_of (entry : dict pyval) : pyval :=
  fst (coerce_source_amount entry (dict_get_default entry k_amount_source (PInt 0))).

(** The value lines 358-365 leave in a taxable-amount field that held [v]
    ([None]: the field was not there). *)
Definition cleaned_value (v : option pyval) : pyval :=
  match v with
  | None => PStr []
  | Some (PStr []) => PStr []
  | Some (PStr s) =>
      match to_number s with
      | Some f => PFloat f
      | None => PStr []
      end
  | Some v => v
  end.


(** The entry along one turn of the loop: after lines 328-343, after the
    two taxable-amount fields are cleaned (lines 357-365, from the entry
    [e4] that holds the EUR amount), after the code is classified (lines
    368-377). *)
Definition normalized (entry : dict pyval) : dict pyval :=
  dict_set
    (dict_set (dict_set entry k_form (PStr (form_of entry)))
       k_code (PStr (code_of entry)))
    k_amount_source (amount_of entry).

Definition cleaned (e4 : dict pyval) : dict pyval :=
  fst (clean_taxable_field k_taxable_source
         (fst (clean_taxable_field k_taxable_france e4))).

Definition classified (entry e4 : dict pyval) : dict pyval :=
  fst (classify_code (cleaned e4) (form_of entry) (code_of entry)).

Definition is_code_warning (w : warning) : bool :=
  match w with
  | W_unknown_code _ _ _ | W_unknown_form _ _ => true
  | _ => false
  end.

Definition is_currency_warning (w : warning) : bool :=
  match w with
  | W_unknown_currency _ _ => true
  | _ => false
  end.

(** ** The specification's wording, where the code departs from it *)




(** Decoding with replacement, as section 4.1 of the specification has it:
    U+FFFD stands in for a byte that cannot be decoded. *)
Definition replacement_character : N := 65533.

Fixpoint decode_replacing_from (skip : nat) (bs : list N) : pystr :=
  match bs with
  | [] => []
  | _ :: rest =>
      match skip with
      | S k => decode_replacing_from k rest
      | O =>
          match utf8_head bs with
          | Some (cp, n) => cp :: decode_replacing_from (Nat.pred n) rest
          | None => replacement_character :: decode_replacing_from 0 rest
          end
      end
  end.

Definition decode_utf8_replace (bs : list N) : pystr := decode_replacing_from 0 bs.

(** The UTF-8 encoding of a code point, and of a string. *)
Definition encode_char (c : N) : list N :=
  (if c <? 128 then [c]
   else if c <? 2048 then [192 + c / 64; 128 + c mod 64]
   else if c <? 65536 then
     [224 + c / 4096; 128 + (c / 64) mod 64; 128 + c mod 64]
   else
     [240 + c / 262144; 128 + (c / 4096) mod 64; 128 + (c / 64) mod 64;
      128 + c mod 64])%N.

Definition encode_utf8 (s : pystr) : list N := flat_map encode_char s.

(** A code point that UTF-8 encodes: up to U+10FFFF, no surrogate. *)
Definition is_scalar (c : N) : bool :=
  (N.ltb c 55296 || in_range 57344 1114111 c)%N.

(** ** Sample inputs *)

(** The third example of the prompt (lines 221-231). *)
Definition chambre_dhote_entry : dict pyval :=
  [ (k_description, PStr (u "Chambre d'Hôte Income"));
    (k_form, PStr (u "2042"));
    (k_code, PStr (u "5TE"));
    (k_source_currency, PStr (u "EUR"));
    (k_amount_source, PInt 7387);
    (k_amount_eur, PInt 7387);
    (k_taxable_france, PInt 7387);
    (k_taxable_source, PStr []);
    (k_notes, PStr (u "Micro-BIC regime, 71% abatement applies")) ].


(** The first example of the prompt (lines 199-209). *)
Definition pension_entry : dict pyval :=
  [ (k_description, PStr (u "UK Civil Service Pension"));
    (k_form, PStr (u "2047"));
    (k_code, PStr (u "1AG"));
    (k_source_currency, PStr (u "GBP"));
    (k_amount_source, PInt 9351);
    (k_amount_eur, PFloat (float_of_decimal false 1104552 (-2)));
    (k_taxable_france, PStr []);
    (k_taxable_source, PFloat (float_of_decimal false 1104552 (-2)));
    (k_notes, PStr (u "Exempt in France, taxable in UK per tax treaty")) ].

(** An entry without a code. *)
Definition codeless_entry : dict pyval :=
  [ (k_description, PStr (u "Bank Interest"));
    (k_form, PStr (u "2042"));
    (k_source_currency, PStr (u "EUR"));
    (k_amount_source, PInt 350) ].




(** The row of the second example of the prompt (lines 210-220), once
    validated. *)
Definition bank_interest_row : dict pyval :=
  [ (k_description, PStr (u "Bank Interest"));
    (k_form, PStr (u "2042"));
    (k_code, PStr (u "2TR"));
    (k_source_currency, PStr (u "EUR"));
    (k_amount_source, PInt 350);
    (k_amount_eur, PInt 350);
    (k_taxable_france, PInt 350);
    (k_taxable_source, PStr []);
    (k_notes, PStr (u "Subject to PFU flat tax at 30%"));
    (k_valid_code, PBool true);
    (k_code_description, PStr (u "Interest income subject to flat tax (PFU)")) ].

(** An entry with a code the reference table does not have. *)
Definition unknown_code_entry : dict pyval :=
  [ (k_description, PStr (u "Crypto gains"));
    (k_form, PStr (u "2042"));
    (k_code, PStr (u "9zz"));
    (k_source_currency, PStr (u "EUR"));
    (k_amount_source, PInt 1200) ].

(** ** A runtime for the sample runs

    The sample entries are ASCII but for their descriptions, and their
    amounts are numbers or plain decimal numerals. *)

(** No case mapping above U+007F. *)
Definition ascii_only_upper (c : N) : list N := [c].

Fixpoint digits_to_N (s : pystr) (acc : N) : option N :=
  match s with
  | [] => Some acc
  | c :: s' =>
      if in_range 48 57 c then digits_to_N s' (acc * 10 + (c - 48))%N
      else None
  end.

Fixpoint split_at_dot (s : pystr) : pystr * option pystr :=
  match s with
  | [] => ([], None)
  | c :: s' =>
      if N.eqb c 46 then ([], Some s')
      else let (whole, fraction) := split_at_dot s' in (c :: whole, fraction)
  end.

(** [float] of a numeral made of digits and at most one point. *)
Definition float_of_plain_decimal (s : pystr) : option float :=
  let (whole, fraction) := split_at_dot s in
  let fraction := match fraction with Some f => f | None => [] end in
  match whole ++ fraction with
  | [] => None
  | digits =>
      match digits_to_N digits 0 with
      | Some (Npos p) =>
          Some (float_of_decimal false p (- Z.of_nat (List.length fraction)))
      | Some N0 => Some (S754_zero false)
      | None => None
      end
  end.

(** [str] of the constants. *)
Definition str_of_constant (v : pyval) : pystr :=
  match v with
  | PNone => u "None"
  | PBool true => u "True"
  | PBool false => u "False"
  | _ => []
  end.


(** ** More of [main]: the sidebar and the uploaded documents *)




Definition newline : pystr := [10%N].


(** ** Predicates for the statements about whole runs *)

Definition is_missing_warning (w : warning) : bool :=
  match w with
  | W_missing_fields _ _ => true
  | _ => false
  end.

(** A taxable-amount field as the validator leaves it: blank, or anything
    but a string. *)
Definition blank_or_not_str (v : pyval) : bool :=
  is_empty_str v || negb (is_str v).

(** The description the reference table has for a form and a code. *)
Definition reference_description (form code : pystr) : option pystr :=
  match dict_get TAX_CODES form with
  | Some codes => dict_get codes code
  | None => None
  end.

(** The currencies the conversion has a rate for: EUR, and the ones of the
    table whose rate Python takes for true. *)
Definition has_rate (table : rates) (currency : pystr) : bool :=
  pystr_eqb currency (u "EUR")
  || match dict_get table currency with
     | Some rate => float_truthy rate
     | None => false
     end.

(** An entry whose form is a number, as a model may well write it. *)
Definition numeric_form_entry : dict pyval :=
  [ (k_description, PStr (u "Bank Interest"));
    (k_form, PInt 2042);
    (k_code, PStr (u "2TR"));
    (k_source_currency, PStr (u "EUR"));
    (k_amount_source, PInt 350) ].

(** The fields the validator adds to an entry it keeps. *)
Definition derived_fields : list pystr :=
  [k_amount_eur; k_taxable_france; k_taxable_source; k_valid_code;
   k_code_description].

(** A source amount that lines 336-341 take without a warning: anything
    but a string that [float] refuses. *)
Definition amount_reads (v : pyval) : bool :=
  match v with
  | PStr s => match to_number s with Some _ => true | None => false end
  | _ => true
  end.

(** A taxable amount that lines 358-365 take without a warning: the blank
    as well. *)
Definition taxable_reads (v : pyval) : bool :=
  is_empty_str v || amount_reads v.

(** The fields one turn of the loop may write. *)
Definition written_fields : list pystr :=
  [k_form; k_code; k_amount_source; k_amount_eur; k_taxable_france;
   k_taxable_source; k_valid_code; k_code_description; k_abatement_amount;
   k_after_abatement; k_notes].


(** Lines 380-381: the test that guards the Micro-BIC rule. *)
Definition micro_bic_applies (entry : dict pyval) : bool :=
  pystr_eqb (str_field entry k_form) (u "2042")
  && pystr_eqb (str_field entry k_code) (u "5TE")
  && match dict_get entry k_taxable_france with
     | Some v => truthy v
     | None => false
     end.

(** The warnings that do not come from a value the validator rewrites:
    those about the currency and those about the code. *)
Definition lasting_warning (w : warning) : bool :=
  is_currency_warning w || is_code_warning w.

(** An entry as a model may write it: blanks around the form, a code in
    small letters with a blank in it, the currency in small letters, the
    amount written the French way, a taxable amount that is no number, and
    a field of its own. *)
Definition untidy_entry : dict pyval :=
  [ (k_description, PStr (u "Dividends"));
    (k_form, PStr (u " 2042 "));
    (k_code, PStr (u "2 dc"));
    (k_source_currency, PStr (u "usd"));
    (k_amount_source, PStr (u "1 234,50"));
    (k_taxable_france, PStr (u "n/a"));
    (u "Country", PStr (u "US")) ].

(** The parser's library for the sample runs: a [json.loads] that knows
    the empty array, and patterns that match nothing. *)
Definition loads_empty_array (s : pystr) : option pyval :=
  if pystr_eqb s (u "[]") then Some (PList []) else None.

Definition no_match (s : pystr) : option pystr := None.


Definition no_feed (rows : DataFrame) : list feed_record := [].

(** The description a warning quotes. *)
Definition warning_description (w : warning) : pyval :=
  match w with
  | W_missing_fields description _ => description
  | W_amount _ description => description
  | W_unknown_currency _ description => description
  | W_taxable _ _ description => description
  | W_unknown_code _ _ description => description
  | W_unknown_form _ description => description
  end.

(** * Properties *)

(** ** Strings and dictionaries *)

Lemma pystr_eqb_eq (a b : pystr) : pystr_eqb a b = true <-> a = b.
Proof.
  revert b; induction a as [|x a IH]; intros [|y b]; simpl; split;
    try congruence; try discriminate.
  - intros H. apply andb_true_iff in H as [Hx Hab].
    apply N.eqb_eq in Hx. apply IH in Hab. congruence.
  - intros H. injection H as -> ->. rewrite N.eqb_refl. simpl. now apply IH.
Qed.

Lemma pystr_eqb_refl (s : pystr) : pystr_eqb s s = true.
Proof. now apply pystr_eqb_eq. Qed.

Lemma pystr_eqb_neq (a b : pystr) : pystr_eqb a b = false <-> a <> b.
Proof.
  split.
  - intros H ->. rewrite pystr_eqb_refl in H. discriminate.
  - intros H. destruct (pystr_eqb a b) eqn:E; [|reflexivity].
    apply pystr_eqb_eq in E. contradiction.
Qed.

Lemma dict_get_set {V} (d : dict V) (k k' : pystr) (v : V) :
  dict_get (dict_set d k v) k'
  = if pystr_eqb k k' then Some v else dict_get d k'.
Proof.
  induction d as [|[k0 v0] d IH]; simpl.
  - reflexivity.
  - destruct (pystr_eqb k0 k) eqn:E0; simpl.
    + apply pystr_eqb_eq in E0. subst k0.
      destruct (pystr_eqb k k'); reflexivity.
    + rewrite IH. destruct (pystr_eqb k0 k') eqn:E1; [|reflexivity].
      apply pystr_eqb_eq in E1. subst k0.
      destruct (pystr_eqb k k') eqn:E2; [|reflexivity].
      apply pystr_eqb_eq in E2. subst k'. rewrite pystr_eqb_refl in E0.
      discriminate.
Qed.

Lemma dict_mem_set {V} (d : dict V) (k k' : pystr) (v : V) :
  dict_mem (dict_set d k v) k' = pystr_eqb k k' || dict_mem d k'.
Proof.
  unfold dict_mem. rewrite dict_get_set. now destruct (pystr_eqb k k').
Qed.


(** Comparisons of two literal keys are settled by evaluation. *)
Ltac eval_keys :=
  repeat match goal with
  | |- context [pystr_eqb ?a ?b] =>
      let r := eval vm_compute in (pystr_eqb a b) in
      lazymatch r with
      | true => replace (pystr_eqb a b) with true by (vm_compute; reflexivity)
      | false => replace (pystr_eqb a b) with false by (vm_compute; reflexivity)
      end
  end.

Ltac get_set := repeat (rewrite dict_get_set; eval_keys; cbv iota).

Lemma startswith_app (p s : pystr) : startswith p (p ++ s) = true.
Proof. induction p; simpl; [reflexivity|]. now rewrite N.eqb_refl. Qed.

Lemma contains_app_r (p a b : pystr) :
  contains p b = true -> contains p (a ++ b) = true.
Proof.
  intros H. induction a as [|x a IH]; simpl; [exact H|].
  rewrite IH. apply orb_true_r.
Qed.

Lemma contains_self_app (p s : pystr) : contains p (p ++ s) = true.
Proof.
  destruct (p ++ s) eqn:E; cbn [contains]; rewrite <- E, startswith_app;
    reflexivity.
Qed.


(** ** [normalize_code] *)

Lemma upper_char_fixed (c : N) :
  is_digit_or_capital c = true -> upper_char c = [c].
Proof.
  unfold is_digit_or_capital, upper_char, in_range. intros H.
  destruct (N.leb_spec 97 c), (N.leb_spec c 122), (N.ltb_spec c 128),
    (N.leb_spec 48 c), (N.leb_spec c 57), (N.leb_spec 65 c),
    (N.leb_spec c 90); simpl in *; try discriminate; try reflexivity; lia.
Qed.

Lemma upper_fixed (s : pystr) :
  Forall (fun c => is_digit_or_capital c = true) s -> upper s = s.
Proof.
  induction 1 as [|c s Hc _ IH]; [reflexivity|].
  unfold upper in *. cbn [flat_map]. rewrite IH, (upper_char_fixed _ Hc).
  reflexivity.
Qed.

Lemma filter_all {A} (p : A -> bool) (l : list A) :
  Forall (fun x => p x = true) l -> filter p l = l.
Proof.
  induction 1 as [|x l Hx _ IH]; simpl; [reflexivity|]. now rewrite Hx, IH.
Qed.

Lemma filter_Forall {A} (p : A -> bool) (l : list A) :
  Forall (fun x => p x = true) (filter p l).
Proof.
  induction l as [|x l IH]; simpl; [constructor|].
  destruct (p x) eqn:E; [constructor|]; assumption.
Qed.

(** C7. Normalizing a code is idempotent; the normal form is the
    uppercased code without the characters that are neither digits nor
    capital letters, so it holds only such characters; and ["1 aj!"]
    normalizes to ["1AJ"]. *)
Theorem normalize_code_idempotent (code : pystr) :
  normalize_code (normalize_code code) = normalize_code code
  /\ normalize_code code = filter is_digit_or_capital (upper code)
  /\ Forall (fun c => is_digit_or_capital c = true) (normalize_code code)
  /\ normalize_code (u "1 aj!") = u "1AJ".
Proof.
  assert (H : Forall (fun c => is_digit_or_capital c = true)
                (normalize_code code)) by apply filter_Forall.
  repeat split.
  - unfold normalize_code at 1. rewrite (upper_fixed _ H). now apply filter_all.
  - exact H.
Qed.

(** ** The steps of the validator *)

Lemma dict_set_same {V} (d : dict V) (k : pystr) (v : V) :
  dict_get d k = Some v -> dict_set d k v = d.
Proof.
  induction d as [|[k0 v0] d IH]; simpl; [discriminate|].
  destruct (pystr_eqb k0 k) eqn:E.
  - intros [= ->]. apply pystr_eqb_eq in E. now subst.
  - intros H. now rewrite IH.
Qed.

Lemma missing_fields_nil (entry : dict pyval) :
  missing_fields entry = [] <->
  forall k, In k required_fields -> dict_mem entry k = true.
Proof.
  unfold missing_fields. split.
  - intros H k Hk. destruct (dict_mem entry k) eqn:E; [reflexivity|].
    assert (Hin : In k (filter (fun field => negb (dict_mem entry field))
                          required_fields)).
    { apply filter_In. split; [exact Hk|]. now rewrite E. }
    rewrite H in Hin. destruct Hin.
  - intros H. induction required_fields as [|k l IH]; [reflexivity|].
    simpl. rewrite (H k (or_introl eq_refl)). simpl.
    apply IH. intros k' Hk'. apply H. now right.
Qed.

Lemma well_typed_inv (entry : dict pyval) :
  well_typed entry = true ->
  exists f c cur a,
    dict_get entry k_form = Some (PStr f)
    /\ dict_get entry k_code = Some (PStr c)
    /\ dict_get entry k_source_currency = Some (PStr cur)
    /\ dict_get entry k_amount_source = Some a
    /\ is_str a || is_number a = true
    /\ field_absent_or (fun v => is_str v || is_number v || is_none v)
         entry k_taxable_france = true
    /\ field_absent_or is_str entry k_notes = true.
Proof.
  unfold well_typed, field_is. intros H.
  repeat (apply andb_true_iff in H as [H ?]).
  destruct (dict_get entry k_form) as [[]|]; try discriminate.
  destruct (dict_get entry k_code) as [[]|]; try discriminate.
  destruct (dict_get entry k_source_currency) as [[]|]; try discriminate.
  destruct (dict_get entry k_amount_source) as [a|]; try discriminate.
  do 4 eexists. repeat split; eassumption.
Qed.

(** The entry after lines 328-343. *)
Lemma process_entry_steps (table : rates) (entry : dict pyval)
    (f c cur : pystr) (a : pyval) :
  missing_fields entry = [] ->
  dict_get entry k_form = Some (PStr f) ->
  dict_get entry k_code = Some (PStr c) ->
  dict_get entry k_source_currency = Some (PStr cur) ->
  dict_get entry k_amount_source = Some a ->
  process_entry table (PDict entry) =
    (let form := strip f in
     let code := normalize_code c in
     let e2 := dict_set (dict_set entry k_form (PStr form)) k_code (PStr code) in
     let amount := fst (coerce_source_amount e2 a) in
     let w1 := snd (coerce_source_amount e2 a) in
     '(e4, w2) <- convert_to_eur table (dict_set e2 k_amount_source amount)
                    (upper cur) amount ;;
     let c3 := clean_taxable_field k_taxable_france e4 in
     let c4 := clean_taxable_field k_taxable_source (fst c3) in
     let c5 := classify_code (fst c4) form code in
     e8 <- special_rules (fst c5) form code ;;
     Ok (Some e8, w1 ++ w2 ++ snd c3 ++ snd c4 ++ snd c5)).
Proof.
  intros Hm Hf Hc Hcur Ha.
  unfold process_entry. rewrite Hm.
  unfold dict_item. rewrite Hf. cbn [bind as_str].
  get_set. rewrite Hc. cbn [bind as_str].
  get_set. rewrite Hcur. cbn [bind as_str].
  unfold dict_get_default. get_set. rewrite Ha.
  cbv zeta.
  destruct (coerce_source_amount _ a) as [amount w1]. cbn [fst snd].
  destruct (convert_to_eur _ _ _ _) as [[e4 w2]|]; cbn [bind]; [|reflexivity].
  destruct (clean_taxable_field k_taxable_france e4) as [e5 w3].
  cbn [fst snd].
  destruct (clean_taxable_field k_taxable_source e5) as [e6 w4].
  cbn [fst snd].
  destruct (classify_code e6 _ _) as [e7 w5]. cbn [fst snd].
  reflexivity.
Qed.

Lemma coerce_source_amount_fst (e e' : dict pyval) (a : pyval) :
  fst (coerce_source_amount e a) = fst (coerce_source_amount e' a).
Proof.
  destruct a; try reflexivity. simpl. now destruct (to_number s).
Qed.

Lemma coerce_source_amount_number (e : dict pyval) (a : pyval) :
  is_str a || is_number a = true ->
  is_number (fst (coerce_source_amount e a)) = true.
Proof.
  destruct a; simpl; try (intros; assumption).
  intros _. destruct (to_number s); reflexivity.
Qed.

Lemma coerce_source_amount_warnings (e : dict pyval) (a : pyval) :
  filter is_currency_warning (snd (coerce_source_amount e a)) = []
  /\ filter is_code_warning (snd (coerce_source_amount e a)) = [].
Proof.
  destruct a; simpl; try (split; reflexivity).
  destruct (to_number s); split; reflexivity.
Qed.

Lemma py_mul_float_number (a : pyval) (rate : float) :
  is_number a = true -> exists product, py_mul_float a rate = Ok product.
Proof.
  destruct a; simpl; try discriminate; intros H; try (eexists; reflexivity).
  destruct (float_of_int z); [|discriminate]. eexists. reflexivity.
Qed.

Lemma py_float_number (v : pyval) :
  is_number v = true -> exists x, py_float v = Ok x.
Proof.
  destruct v; simpl; try discriminate; intros H; try (eexists; reflexivity).
  destruct (float_of_int z); [|discriminate]. eexists. reflexivity.
Qed.

Lemma clean_taxable_field_fst (field : pystr) (e : dict pyval) :
  fst (clean_taxable_field field e)
  = dict_set e field (cleaned_value (dict_get e field)).
Proof.
  unfold clean_taxable_field, cleaned_value.
  destruct (dict_get e field) as [v|] eqn:E; [|reflexivity].
  destruct v; cbn [is_empty_str fst]; try (now rewrite (dict_set_same _ _ _ E)).
  destruct s as [|x s]; [reflexivity|].
  destruct (to_number (x :: s)); reflexivity.
Qed.

Lemma clean_taxable_field_warnings (field : pystr) (e : dict pyval) :
  filter is_currency_warning (snd (clean_taxable_field field e)) = []
  /\ filter is_code_warning (snd (clean_taxable_field field e)) = [].
Proof.
  unfold clean_taxable_field.
  destruct (dict_get e field) as [v|]; [|split; reflexivity].
  destruct v; cbn [is_empty_str]; try (split; reflexivity).
  destruct s as [|x s]; [split; reflexivity|].
  destruct (to_number (x :: s)); split; reflexivity.
Qed.

Lemma classify_code_fst (e : dict pyval) (form code : pystr) :
  exists b d,
    fst (classify_code e form code)
    = dict_set (dict_set e k_valid_code (PBool b)) k_code_description (PStr d).
Proof.
  unfold classify_code.
  destruct (dict_get TAX_CODES form) as [codes|];
    [destruct (dict_get codes code)|]; do 2 eexists; reflexivity.
Qed.

(** What the later steps leave alone. *)
Lemma cleaned_get (e4 : dict pyval) (k : pystr) :
  pystr_eqb k_taxable_france k = false ->
  pystr_eqb k_taxable_source k = false ->
  dict_get (cleaned e4) k = dict_get e4 k.
Proof.
  intros H1 H2. unfold cleaned.
  rewrite !clean_taxable_field_fst, !dict_get_set, H1, H2. reflexivity.
Qed.

Lemma cleaned_get_france (e4 : dict pyval) :
  dict_get (cleaned e4) k_taxable_france
  = Some (cleaned_value (dict_get e4 k_taxable_france)).
Proof.
  unfold cleaned. rewrite !clean_taxable_field_fst. get_set. reflexivity.
Qed.

Lemma classified_get (entry e4 : dict pyval) (k : pystr) :
  pystr_eqb k_valid_code k = false ->
  pystr_eqb k_code_description k = false ->
  dict_get (classified entry e4) k = dict_get (cleaned e4) k.
Proof.
  intros H1 H2. unfold classified.
  destruct (classify_code_fst (cleaned e4) (form_of entry) (code_of entry))
    as (b & d & ->).
  rewrite !dict_get_set, H1, H2. reflexivity.
Qed.

Lemma normalized_get (entry : dict pyval) (k : pystr) :
  pystr_eqb k_form k = false ->
  pystr_eqb k_code k = false ->
  pystr_eqb k_amount_source k = false ->
  dict_get (normalized entry) k = dict_get entry k.
Proof.
  intros H1 H2 H3. unfold normalized.
  rewrite !dict_get_set, H1, H2, H3. reflexivity.
Qed.

Lemma description_of_eq (e e' : dict pyval) :
  dict_get e' k_description = dict_get e k_description ->
  description_of e' = description_of e.
Proof. unfold description_of, dict_get_default. now intros ->. Qed.

Lemma convert_to_eur_set (table : rates) (e : dict pyval) (cur : pystr)
    (a : pyval) (e4 : dict pyval) (w2 : list warning) :
  convert_to_eur table e cur a = Ok (e4, w2) ->
  exists eur, e4 = dict_set e k_amount_eur eur.
Proof.
  unfold convert_to_eur.
  destruct (negb (pystr_eqb cur (u "EUR")));
    [destruct (dict_get table cur) as [rate|];
     [destruct (float_truthy rate);
      [destruct (py_mul_float a rate); cbn [bind]|]|]|];
    intros [= <- <-] || discriminate; eexists; reflexivity.
Qed.

Lemma convert_to_eur_number (table : rates) (e : dict pyval) (cur : pystr)
    (a : pyval) :
  is_number a = true ->
  exists e4 w2, convert_to_eur table e cur a = Ok (e4, w2).
Proof.
  intros Ha. unfold convert_to_eur.
  destruct (negb (pystr_eqb cur (u "EUR")));
    [destruct (dict_get table cur) as [rate|];
     [destruct (float_truthy rate);
      [destruct (py_mul_float_number a rate Ha) as [p ->]; cbn [bind]|]|]|];
    do 2 eexists; reflexivity.
Qed.

Lemma special_rules_get (e : dict pyval) (form code : pystr)
    (e8 : dict pyval) (k : pystr) :
  special_rules e form code = Ok e8 ->
  pystr_eqb k_abatement_amount k = false ->
  pystr_eqb k_after_abatement k = false ->
  pystr_eqb k_notes k = false ->
  dict_get e8 k = dict_get e k.
Proof.
  unfold special_rules. intros H H1 H2 H3.
  destruct (pystr_eqb form (u "2042") && pystr_eqb code (u "5TE"));
    [|now injection H as <-].
  destruct (dict_get e k_taxable_france) as [v|]; [|now injection H as <-].
  destruct (truthy v); [|now injection H as <-].
  destruct (py_float v) as [raw|]; cbn [bind] in H; [|discriminate].
  destruct (py_add_str _ _) as [notes|]; cbn [bind] in H; [|discriminate].
  injection H as <-. rewrite !dict_get_set, H1, H2, H3. reflexivity.
Qed.

Lemma special_rules_total (e : dict pyval) (form code : pystr) :
  (forall v, dict_get e k_taxable_france = Some v ->
             truthy v = true -> is_number v = true) ->
  field_absent_or is_str e k_notes = true ->
  exists e8, special_rules e form code = Ok e8.
Proof.
  unfold special_rules. intros Htf Hnotes.
  destruct (pystr_eqb form (u "2042") && pystr_eqb code (u "5TE"));
    [|eexists; reflexivity].
  destruct (dict_get e k_taxable_france) as [v|] eqn:E; [|eexists; reflexivity].
  destruct (truthy v) eqn:Ev; [|eexists; reflexivity].
  destruct (py_float_number v (Htf v eq_refl Ev)) as [raw ->]. cbn [bind].
  unfold dict_get_default. get_set.
  unfold field_absent_or in Hnotes.
  destruct (dict_get e k_notes) as [[]|]; try discriminate;
    cbn [py_add_str bind]; eexists; reflexivity.
Qed.

(** One turn of the loop on a well-typed entry that has the required
    fields: it goes through, the entry it appends is what [special_rules]
    makes of the classified entry, and but for the currency warning and the
    code warning no warning is about the currency or the code. *)
Lemma process_entry_typed (table : rates) (entry : dict pyval) :
  missing_fields entry = [] -> well_typed entry = true ->
  exists e4 w2 e8 w1 w34,
    convert_to_eur table (normalized entry) (currency_of entry)
      (amount_of entry) = Ok (e4, w2)
    /\ special_rules (classified entry e4) (form_of entry) (code_of entry)
       = Ok e8
    /\ process_entry table (PDict entry)
       = Ok (Some e8,
             w1 ++ w2 ++ w34
             ++ snd (classify_code (cleaned e4) (form_of entry) (code_of entry)))
    /\ filter is_currency_warning w1 = [] /\ filter is_code_warning w1 = []
    /\ filter is_currency_warning w34 = [] /\ filter is_code_warning w34 = [].
Proof.
  intros Hm Ht.
  destruct (well_typed_inv _ Ht)
    as (f & c & cur & a & Hf & Hc & Hcur & Ha & Hnum & Htf & Hnotes).
  rewrite (process_entry_steps table entry f c cur a Hm Hf Hc Hcur Ha). cbv zeta.
  unfold classified, cleaned, normalized, form_of, code_of, currency_of,
    amount_of, str_field, dict_get_default.
  rewrite Hf, Hc, Hcur, Ha.
  set (e2 := dict_set (dict_set entry k_form (PStr (strip f))) k_code
               (PStr (normalize_code c))).
  rewrite (coerce_source_amount_fst entry e2 a).
  set (amount := fst (coerce_source_amount e2 a)).
  assert (Hamount : is_number amount = true)
    by now apply coerce_source_amount_number.
  destruct (convert_to_eur_number table (dict_set e2 k_amount_source amount)
              (upper cur) amount Hamount) as (e4 & w2 & He4).
  rewrite He4. cbn [bind].
  set (c3 := clean_taxable_field k_taxable_france e4).
  set (c4 := clean_taxable_field k_taxable_source (fst c3)).
  set (c5 := classify_code (fst c4) (strip f) (normalize_code c)).
  destruct (convert_to_eur_set _ _ _ _ _ _ He4) as [eur Heur].
  assert (Hget : forall k,
             pystr_eqb k_valid_code k = false ->
             pystr_eqb k_code_description k = false ->
             pystr_eqb k_taxable_france k = false ->
             pystr_eqb k_taxable_source k = false ->
             pystr_eqb k_amount_eur k = false ->
             pystr_eqb k_form k = false ->
             pystr_eqb k_code k = false ->
             pystr_eqb k_amount_source k = false ->
             dict_get (fst c5) k = dict_get entry k).
  { intros k H1 H2 H3 H4 H5 H6 H7 H8. subst c5 c4 c3.
    destruct (classify_code_fst
                (fst (clean_taxable_field k_taxable_source
                        (fst (clean_taxable_field k_taxable_france e4))))
                (strip f) (normalize_code c)) as (b & d & ->).
    rewrite !clean_taxable_field_fst, Heur. unfold e2.
    rewrite !dict_get_set, H1, H2, H3, H4, H5, H6, H7, H8. reflexivity. }
  assert (Hfr : dict_get (fst c5) k_taxable_france
                = Some (cleaned_value (dict_get entry k_taxable_france))).
  { subst c5 c4 c3.
    destruct (classify_code_fst
                (fst (clean_taxable_field k_taxable_source
                        (fst (clean_taxable_field k_taxable_france e4))))
                (strip f) (normalize_code c)) as (b & d & ->).
    rewrite !clean_taxable_field_fst, Heur. unfold e2. get_set. reflexivity. }
  destruct (special_rules_total (fst c5) (strip f) (normalize_code c))
    as [e8 He8].
  - intros v Hv Htruthy. rewrite Hfr in Hv. injection Hv as <-.
    unfold field_absent_or in Htf.
    destruct (dict_get entry k_taxable_france) as [v|];
      [|discriminate Htruthy].
    destruct v as [|b|z|x|s|l|d]; cbn in Htf; try discriminate Htf;
      try exact Htf; try discriminate Htruthy.
    + cbn. destruct (float_of_int z); [reflexivity|discriminate Htf].
    + destruct s as [|x s]; [discriminate Htruthy|].
      cbn [cleaned_value] in *.
      destruct (to_number (x :: s)); [reflexivity|discriminate Htruthy].
  - unfold field_absent_or. rewrite Hget by (vm_compute; reflexivity).
    exact Hnotes.
  - rewrite He8. cbn [bind].
    exists e4, w2, e8, (snd (coerce_source_amount e2 a)), (snd c3 ++ snd c4).
    repeat split; try apply coerce_source_amount_warnings.
    + exact He8.
    + now rewrite <- app_assoc.
    + rewrite filter_app. subst c4 c3.
      now rewrite !(proj1 (clean_taxable_field_warnings _ _)).
    + rewrite filter_app. subst c4 c3.
      now rewrite !(proj2 (clean_taxable_field_warnings _ _)).
Qed.


(** The fields the steps after the conversion leave as [e4] has them. *)
Lemma processed_get (entry e4 e8 : dict pyval) (k : pystr) :
  special_rules (classified entry e4) (form_of entry) (code_of entry) = Ok e8 ->
  pystr_eqb k_abatement_amount k = false ->
  pystr_eqb k_after_abatement k = false ->
  pystr_eqb k_notes k = false ->
  pystr_eqb k_valid_code k = false ->
  pystr_eqb k_code_description k = false ->
  pystr_eqb k_taxable_france k = false ->
  pystr_eqb k_taxable_source k = false ->
  dict_get e8 k = dict_get e4 k.
Proof.
  intros H H1 H2 H3 H4 H5 H6 H7.
  rewrite (special_rules_get _ _ _ _ _ H H1 H2 H3).
  rewrite (classified_get _ _ _ H4 H5).
  apply cleaned_get; assumption.
Qed.

Lemma description_of_normalized (entry : dict pyval) :
  description_of (normalized entry) = description_of entry.
Proof.
  apply description_of_eq. apply normalized_get; vm_compute; reflexivity.
Qed.








(** ** The validated entries have the required fields *)

Lemma special_rules_mem (e : dict pyval) (form code : pystr)
    (e8 : dict pyval) (k : pystr) :
  special_rules e form code = Ok e8 ->
  dict_mem e k = true -> dict_mem e8 k = true.
Proof.
  unfold special_rules. intros H Hk.
  destruct (pystr_eqb form (u "2042") && pystr_eqb code (u "5TE"));
    [|now injection H as <-].
  destruct (dict_get e k_taxable_france) as [v|]; [|now injection H as <-].
  destruct (truthy v); [|now injection H as <-].
  destruct (py_float v) as [raw|]; cbn [bind] in H; [|discriminate].
  destruct (py_add_str _ _) as [notes|]; cbn [bind] in H; [|discriminate].
  injection H as <-. rewrite !dict_mem_set, Hk, !orb_true_r. reflexivity.
Qed.

Lemma process_entry_inv (table : rates) (v : pyval) (e8 : dict pyval)
    (ws : list warning) :
  process_entry table v = Ok (Some e8, ws) ->
  exists entry f c cur a,
    v = PDict entry
    /\ missing_fields entry = []
    /\ dict_get entry k_form = Some (PStr f)
    /\ dict_get entry k_code = Some (PStr c)
    /\ dict_get entry k_source_currency = Some (PStr cur)
    /\ dict_get entry k_amount_source = Some a.
Proof.
  intros H. destruct v as [|b|z|x|s|l|entry]; try discriminate H.
  - unfold process_entry in H. destruct (forallb _ _); discriminate H.
  - unfold process_entry in H. destruct (forallb _ _); discriminate H.
  - unfold process_entry in H.
    destruct (missing_fields entry) eqn:Hm; [|discriminate H].
    assert (Hmem := proj1 (missing_fields_nil entry) Hm).
    assert (Ha : dict_mem entry k_amount_source = true)
      by (apply Hmem; vm_compute; tauto).
    unfold dict_mem in Ha.
    destruct (dict_get entry k_amount_source) as [a|] eqn:Ea;
      [clear Ha|discriminate Ha].
    revert H. unfold dict_item.
    destruct (dict_get entry k_form) as [vf|] eqn:Ef; cbn [bind];
      [|discriminate].
    destruct vf as [| | | |f| |]; cbn [bind as_str]; try discriminate.
    get_set.
    destruct (dict_get entry k_code) as [vc|] eqn:Ec; cbn [bind];
      [|discriminate].
    destruct vc as [| | | |c| |]; cbn [bind as_str]; try discriminate.
    get_set.
    destruct (dict_get entry k_source_currency) as [vcur|] eqn:Ecur;
      cbn [bind]; [|discriminate].
    destruct vcur as [| | | |cur| |]; cbn [bind as_str]; try discriminate.
    intros _. exists entry, f, c, cur, a. repeat split; assumption.
Qed.

Lemma process_entry_some_fields (table : rates) (v : pyval)
    (e8 : dict pyval) (ws : list warning) :
  process_entry table v = Ok (Some e8, ws) -> missing_fields e8 = [].
Proof.
  intros H.
  destruct (process_entry_inv _ _ _ _ H)
    as (entry & f & c & cur & a & -> & Hm & Hf & Hc & Hcur & Ha).
  rewrite (process_entry_steps table entry f c cur a Hm Hf Hc Hcur Ha) in H.
  cbv zeta in H.
  destruct (convert_to_eur _ _ _ _) as [[e4 w2]|] eqn:Hconv;
    cbn [bind] in H; [|discriminate H].
  destruct (special_rules _ _ _) as [e|] eqn:Hspec; cbn [bind] in H;
    [|discriminate H].
  injection H as -> _.
  apply missing_fields_nil. intros k Hk.
  apply (special_rules_mem _ _ _ _ _ Hspec).
  destruct (classify_code_fst
              (fst (clean_taxable_field k_taxable_source
                      (fst (clean_taxable_field k_taxable_france e4))))
              (strip f) (normalize_code c)) as (b & d & ->).
  rewrite !clean_taxable_field_fst.
  destruct (convert_to_eur_set _ _ _ _ _ _ Hconv) as [eur ->].
  rewrite !dict_mem_set.
  rewrite (proj1 (missing_fields_nil entry) Hm k Hk), !orb_true_r.
  reflexivity.
Qed.



(** ** What the validator does with an entry *)






(** ** Rounding *)


(** ** Decoding *)

Lemma in_range_true (lo hi x : N) :
  (lo <= x)%N -> (x <= hi)%N -> in_range lo hi x = true.
Proof.
  intros H1 H2. unfold in_range.
  apply andb_true_iff. split; now apply N.leb_le.
Qed.

Lemma in_range_false (lo hi x : N) :
  (x < lo \/ hi < x)%N -> in_range lo hi x = false.
Proof.
  intros H. unfold in_range. apply andb_false_iff.
  destruct H; [left|right]; now apply N.leb_gt.
Qed.

Lemma utf8_head_1 (b0 : N) (rest : list N) :
  (b0 < 128)%N -> utf8_head (b0 :: rest) = Some (b0, 1%nat).
Proof.
  intros H. unfold utf8_head.
  now rewrite (proj2 (N.ltb_lt _ _) H).
Qed.

Lemma utf8_head_2 (b0 b1 : N) (rest : list N) :
  (194 <= b0 <= 223)%N -> is_cont b1 = true ->
  utf8_head (b0 :: b1 :: rest)
  = Some (((b0 - 192) * 64 + (b1 - 128))%N, 2%nat).
Proof.
  intros H0 H1. unfold utf8_head.
  rewrite (proj2 (N.ltb_ge _ _)) by lia.
  rewrite in_range_true by lia. now rewrite H1.
Qed.

Lemma utf8_head_3 (b0 b1 b2 : N) (rest : list N) :
  (224 <= b0 <= 239)%N -> second_ok b0 b1 = true -> is_cont b2 = true ->
  utf8_head (b0 :: b1 :: b2 :: rest)
  = Some (((b0 - 224) * 4096 + (b1 - 128) * 64 + (b2 - 128))%N, 3%nat).
Proof.
  intros H0 H1 H2. unfold utf8_head.
  rewrite (proj2 (N.ltb_ge _ _)) by lia.
  rewrite in_range_false by lia.
  rewrite in_range_true by lia. now rewrite H1, H2.
Qed.

Lemma utf8_head_4 (b0 b1 b2 b3 : N) (rest : list N) :
  (240 <= b0 <= 244)%N -> second_ok b0 b1 = true -> is_cont b2 = true ->
  is_cont b3 = true ->
  utf8_head (b0 :: b1 :: b2 :: b3 :: rest)
  = Some (((b0 - 240) * 262144 + (b1 - 128) * 4096 + (b2 - 128) * 64
           + (b3 - 128))%N, 4%nat).
Proof.
  intros H0 H1 H2 H3. unfold utf8_head.
  rewrite (proj2 (N.ltb_ge _ _)) by lia.
  rewrite in_range_false by lia.
  rewrite in_range_false by lia.
  rewrite in_range_true by lia. now rewrite H1, H2, H3.
Qed.

Lemma second_ok_true (b0 b1 : N) :
  (128 <= b1 <= 191)%N ->
  (b0 = 224 -> 160 <= b1)%N -> (b0 = 237 -> b1 <= 159)%N ->
  (b0 = 240 -> 144 <= b1)%N -> (b0 = 244 -> b1 <= 143)%N ->
  second_ok b0 b1 = true.
Proof.
  intros H H224 H237 H240 H244. unfold second_ok, is_cont.
  destruct (N.eqb_spec b0 224); [apply in_range_true; lia|].
  destruct (N.eqb_spec b0 237); [apply in_range_true; lia|].
  destruct (N.eqb_spec b0 240); [apply in_range_true; lia|].
  destruct (N.eqb_spec b0 244); apply in_range_true; lia.
Qed.

Lemma decode_encode_char (c : N) (rest : list N) :
  is_scalar c = true ->
  decode_from 0 (encode_char c ++ rest) = c :: decode_from 0 rest.
Proof.
  unfold is_scalar, in_range, encode_char. intros Hc.
  assert (Hs : (c < 55296 \/ 57344 <= c <= 1114111)%N).
  { apply orb_true_iff in Hc as [H|H].
    - left. now apply N.ltb_lt.
    - right. apply andb_true_iff in H as [H1 H2].
      split; now apply N.leb_le. }
  clear Hc.
  pose proof (N.div_mod' c 64) as E1.
  pose proof (N.mod_lt c 64 ltac:(lia)) as B1.
  pose proof (N.div_mod' (c / 64) 64) as E2.
  pose proof (N.mod_lt (c / 64) 64 ltac:(lia)) as B2.
  pose proof (N.div_mod' (c / 4096) 64) as E3.
  pose proof (N.mod_lt (c / 4096) 64 ltac:(lia)) as B3.
  pose proof (N.div_mod' c 4096) as E4.
  pose proof (N.mod_lt c 4096 ltac:(lia)) as B4.
  pose proof (N.div_mod' c 262144) as E5.
  pose proof (N.mod_lt c 262144 ltac:(lia)) as B5.
  set (q1 := (c / 64)%N) in *. set (r1 := (c mod 64)%N) in *.
  set (r2 := (q1 mod 64)%N) in *. set (q2 := (q1 / 64)%N) in *.
  set (q4 := (c / 4096)%N) in *. set (r4 := (c mod 4096)%N) in *.
  set (q3 := (q4 / 64)%N) in *. set (r3 := (q4 mod 64)%N) in *.
  set (q5 := (c / 262144)%N) in *. set (r5 := (c mod 262144)%N) in *.
  destruct (N.ltb_spec c 128) as [H1|H1].
  - cbn [app decode_from]. rewrite utf8_head_1 by exact H1. reflexivity.
  - destruct (N.ltb_spec c 2048) as [H2|H2].
    + cbn [app decode_from].
      rewrite utf8_head_2 by (try apply in_range_true; lia).
      cbn [Nat.pred decode_from]. f_equal. lia.
    + destruct (N.ltb_spec c 65536) as [H3|H3].
      * cbn [app decode_from].
        rewrite utf8_head_3
          by (try apply second_ok_true; try apply in_range_true; lia).
        cbn [Nat.pred decode_from]. f_equal. lia.
      * cbn [app decode_from].
        rewrite utf8_head_4
          by (try apply second_ok_true; try apply in_range_true; lia).
        cbn [Nat.pred decode_from]. f_equal. lia.
Qed.

Lemma decode_encode (s : pystr) :
  Forall (fun c => is_scalar c = true) s ->
  decode_utf8_ignore (encode_utf8 s) = s.
Proof.
  unfold decode_utf8_ignore, encode_utf8.
  induction 1 as [|c s Hc _ IH]; [reflexivity|].
  cbn [flat_map]. rewrite (decode_encode_char _ _ Hc), IH. reflexivity.
Qed.

Lemma decode_from_length (bs : list N) (skip : nat) :
  (List.length (decode_from skip bs) <= List.length bs)%nat.
Proof.
  revert skip. induction bs as [|b bs IH]; intros skip; [apply le_n|].
  cbn [decode_from]. destruct skip as [|k].
  - destruct (utf8_head (b :: bs)) as [[cp n]|]; cbn [List.length].
    + apply le_n_S, IH.
    + apply le_S, IH.
  - cbn [List.length]. apply le_S, IH.
Qed.

(** ** Rounding, the parser, the filing feed and the text extractor *)



Lemma df_column_cons (row : dict pyval) (rest : DataFrame) (column : pystr)
    (values : list pyval) :
  df_column (row :: rest) column = Ok values -> values <> [].
Proof.
  cbn [df_column].
  destruct (dict_item row column); cbn [bind]; [|discriminate].
  destruct (df_column rest column); cbn [bind]; [|discriminate].
  intros [= <-]. discriminate.
Qed.

(** C2.  [create_json_output] builds no feed from a frame that has a row:
    it raises while it evaluates the filter of line 427, as it does on the
    one row of the bank interest of the prompt. *)
Theorem create_json_output_raises (row : dict pyval) (rest : DataFrame) :
  (exists e, create_json_output (row :: rest) = Raise e)
  /\ create_json_output [bank_interest_row] = Raise TypeError
  /\ create_json_output [] = Ok [].
Proof.
  split; [|split; reflexivity].
  unfold create_json_output. cbn [List.length Nat.eqb].
  destruct (df_column (row :: rest) k_taxable_france) as [france|];
    cbn [bind]; [|eexists; reflexivity].
  destruct (df_column (row :: rest) k_taxable_source) as [source|] eqn:E;
    cbn [bind]; [|eexists; reflexivity].
  apply df_column_cons in E.
  destruct source as [|v source]; [contradiction|].
  eexists. reflexivity.
Qed.

(** C9, as the code has it.  The text of a [.txt] document is its bytes
    decoded as UTF-8 with the undecodable bytes left out: well-formed
    UTF-8 decodes to the code points it encodes, a byte that starts no
    well-formed sequence adds nothing to the text, and the text has no more
    code points than the document has bytes.  The decoding is a total
    function: no bytes make it raise. *)
Theorem txt_extraction_drops_undecodable (data : list byte) :
  extract_text_from_file (u ".txt") data
  = decode_utf8_ignore (map Byte.to_N data)
  /\ (forall s, Forall (fun c => is_scalar c = true) s ->
                decode_utf8_ignore (encode_utf8 s) = s)
  /\ (forall b rest, utf8_head (b :: rest) = None ->
                     decode_utf8_ignore (b :: rest) = decode_utf8_ignore rest)
  /\ (List.length (extract_text_from_file (u ".txt") data)
      <= List.length data)%nat.
Proof.
  assert (E : extract_text_from_file (u ".txt") data
              = decode_utf8_ignore (map Byte.to_N data)).
  { unfold extract_text_from_file.
    replace (pystr_eqb (u ".txt") (u ".txt")) with true
      by (vm_compute; reflexivity).
    reflexivity. }
  split; [exact E|]. split; [exact decode_encode|]. split.
  - intros b rest H. unfold decode_utf8_ignore. cbn [decode_from].
    now rewrite H.
  - rewrite E. unfold decode_utf8_ignore.
    rewrite <- (length_map Byte.to_N data). apply decode_from_length.
Qed.


(** * More properties of the code *)

(** ** One turn of the loop, whatever the entry *)

Lemma coerce_source_amount_snd (e e' : dict pyval) (a : pyval) :
  description_of e = description_of e' ->
  snd (coerce_source_amount e a) = snd (coerce_source_amount e' a).
Proof.
  intros H. destruct a; try reflexivity. simpl.
  destruct (to_number s); [reflexivity|]. simpl. now rewrite H.
Qed.

(** What a turn that appends an entry went through. *)
Lemma process_entry_some (table : rates) (v : pyval) (e8 : dict pyval)
    (ws : list warning) :
  process_entry table v = Ok (Some e8, ws) ->
  exists entry e4 w2,
    v = PDict entry
    /\ missing_fields entry = []
    /\ field_is is_str entry k_form = true
    /\ field_is is_str entry k_code = true
    /\ field_is is_str entry k_source_currency = true
    /\ convert_to_eur table (normalized entry) (currency_of entry)
         (amount_of entry) = Ok (e4, w2)
    /\ special_rules (classified entry e4) (form_of entry) (code_of entry)
       = Ok e8
    /\ ws = snd (coerce_source_amount entry
                   (dict_get_default entry k_amount_source (PInt 0)))
            ++ w2
            ++ snd (clean_taxable_field k_taxable_france e4)
            ++ snd (clean_taxable_field k_taxable_source
                      (fst (clean_taxable_field k_taxable_france e4)))
            ++ snd (classify_code (cleaned e4) (form_of entry) (code_of entry)).
Proof.
  intros H.
  destruct (process_entry_inv _ _ _ _ H)
    as (entry & f & c & cur & a & -> & Hm & Hf & Hc & Hcur & Ha).
  rewrite (process_entry_steps table entry f c cur a Hm Hf Hc Hcur Ha) in H.
  cbv zeta in H.
  exists entry.
  unfold classified, cleaned, normalized, form_of, code_of, currency_of,
    amount_of, str_field, dict_get_default, field_is.
  rewrite Hf, Hc, Hcur, Ha.
  set (e2 := dict_set (dict_set entry k_form (PStr (strip f))) k_code
               (PStr (normalize_code c))) in *.
  rewrite (coerce_source_amount_fst entry e2 a).
  assert (Hdesc : description_of entry = description_of e2).
  { symmetry. apply description_of_eq. unfold e2. get_set. reflexivity. }
  rewrite (coerce_source_amount_snd entry e2 a Hdesc).
  destruct (convert_to_eur _ _ _ _) as [[e4 w2]|] eqn:Hconv;
    cbn [bind] in H; [|discriminate H].
  destruct (special_rules _ _ _) as [e|] eqn:Hspec; cbn [bind] in H;
    [|discriminate H].
  injection H as -> <-.
  exists e4, w2. repeat split; try reflexivity; assumption.
Qed.

(** A turn that appends nothing is the turn of an entry that lacks a
    required field. *)
Lemma process_entry_none (table : rates) (v : pyval) (ws : list warning) :
  process_entry table v = Ok (None, ws) ->
  exists entry,
    v = PDict entry /\ missing_fields entry <> []
    /\ ws = [W_missing_fields (description_of entry) (missing_fields entry)].
Proof.
  intros H. destruct v as [|b|z|x|s|l|entry]; try discriminate H.
  - unfold process_entry in H. destruct (forallb _ _); discriminate H.
  - unfold process_entry in H. destruct (forallb _ _); discriminate H.
  - exists entry. unfold process_entry in H.
    destruct (missing_fields entry) as [|k l] eqn:Hm.
    + exfalso. revert H. unfold dict_item.
      destruct (dict_get entry k_form) as [vf|]; cbn [bind]; [|discriminate].
      destruct (as_str vf); cbn [bind]; [|discriminate].
      destruct (dict_get _ k_code) as [vc|]; cbn [bind]; [|discriminate].
      destruct (as_str vc); cbn [bind]; [|discriminate].
      destruct (dict_get _ k_source_currency) as [vcur|]; cbn [bind];
        [|discriminate].
      destruct (as_str vcur); cbn [bind]; [|discriminate].
      destruct (coerce_source_amount _ _) as [amount w1].
      destruct (convert_to_eur _ _ _ _) as [[e4 w2]|]; cbn [bind];
        [|discriminate].
      destruct (clean_taxable_field k_taxable_france e4) as [e5 w3].
      destruct (clean_taxable_field k_taxable_source e5) as [e6 w4].
      destruct (classify_code e6 _ _) as [e7 w5].
      destruct (special_rules e7 _ _); cbn [bind]; discriminate.
    + injection H as <-. repeat split. discriminate.
Qed.

(** ** The loop *)

Lemma run_loop_from (table : rates) (entries : list pyval)
    (valid : list (dict pyval)) (warns : list warning) :
  run_loop table (valid, warns) entries
  = (r <- run_loop table ([], []) entries ;;
     Ok (valid ++ fst r, warns ++ snd r)).
Proof.
  revert valid warns.
  induction entries as [|entry rest IH]; intros valid warns.
  - cbn [run_loop bind fst snd]. now rewrite !app_nil_r.
  - cbn [run_loop]. unfold loop_body.
    destruct (process_entry table entry) as [[kept ws]|]; cbn [bind];
      [|reflexivity].
    destruct kept as [e|]; cbn [bind]; rewrite IH;
      rewrite (IH _ ([] ++ ws));
      destruct (run_loop table ([], []) rest) as [[v w]|]; cbn [bind fst snd];
      try reflexivity; now rewrite <- ?app_assoc.
Qed.

Lemma run_loop_app (table : rates) (es1 es2 : list pyval) (st : loop_state) :
  run_loop table st (es1 ++ es2)
  = (st' <- run_loop table st es1 ;; run_loop table st' es2).
Proof.
  revert st. induction es1 as [|e es1 IH]; intros st; [reflexivity|].
  cbn [app run_loop].
  destruct (loop_body table st e); cbn [bind]; [apply IH|reflexivity].
Qed.

Lemma validate_list (table : rates) (entries : list pyval) :
  validate_and_clean_data table (PList entries)
  = run_loop table ([], []) entries.
Proof.
  unfold validate_and_clean_data. destruct entries; reflexivity.
Qed.

(** X1.  Only a list is read as entries.  On any other JSON value the
    validator returns no entry and no warning when Python takes the value
    for false (null, 0, an empty string or object), and raises when it
    takes it for true: a lone object is iterated by its keys, a string by
    its characters, and a number is not iterable. *)
Theorem validator_wants_a_list (table : rates) (parsed_data : pyval) :
  (forall entries, parsed_data <> PList entries) ->
  if truthy parsed_data
  then exists e, validate_and_clean_data table parsed_data = Raise e
  else validate_and_clean_data table parsed_data = Ok ([], []).
Proof.
  intros Hlist. unfold validate_and_clean_data.
  destruct (truthy parsed_data) eqn:Ht; cbn [negb]; [|reflexivity].
  destruct parsed_data as [|b|z|x|s|l|d]; cbn [py_iter bind];
    try (eexists; reflexivity).
  - destruct s as [|c s]; [discriminate Ht|].
    cbn [map run_loop]. unfold loop_body, process_entry.
    destruct (forallb _ _); eexists; reflexivity.
  - now contradiction (Hlist l).
  - destruct d as [|[k v] d]; [discriminate Ht|].
    cbn [map run_loop fst]. unfold loop_body, process_entry.
    destruct (forallb _ _); eexists; reflexivity.
Qed.

(** X2.  The entries do not bear on one another: validating two lists one
    after the other and joining the results is validating their
    concatenation, with the entries and the warnings in the order of the
    input, and it raises when either does. *)
Theorem validation_of_a_concatenation (table : rates) (es1 es2 : list pyval) :
  validate_and_clean_data table (PList (es1 ++ es2))
  = (r1 <- validate_and_clean_data table (PList es1) ;;
     r2 <- validate_and_clean_data table (PList es2) ;;
     Ok (fst r1 ++ fst r2, snd r1 ++ snd r2)).
Proof.
  rewrite !validate_list, run_loop_app.
  destruct (run_loop table ([], []) es1) as [[v1 w1]|]; cbn [bind];
    [|reflexivity].
  apply run_loop_from.
Qed.

(** X3.  One entry that raises takes the whole run with it: the validator
    returns nothing for a list that holds such an entry, whatever the other
    entries are. *)
Theorem one_bad_entry_aborts_the_run (table : rates) (entries : list pyval)
    (entry : pyval) (e : exn) :
  In entry entries -> process_entry table entry = Raise e ->
  exists e', validate_and_clean_data table (PList entries) = Raise e'.
Proof.
  intros Hin Hraise. rewrite validate_list.
  destruct (in_split _ _ Hin) as (l1 & l2 & ->).
  rewrite run_loop_app.
  destruct (run_loop table ([], []) l1) as [[v w]|]; cbn [bind];
    [|eexists; reflexivity].
  cbn [run_loop]. unfold loop_body. rewrite Hraise. cbn [bind].
  eexists. reflexivity.
Qed.

Lemma clean_taxable_field_no_missing (field : pystr) (e : dict pyval) :
  filter is_missing_warning (snd (clean_taxable_field field e)) = [].
Proof.
  unfold clean_taxable_field.
  destruct (dict_get e field) as [v|]; [|reflexivity].
  destruct v; cbn [is_empty_str]; try reflexivity.
  destruct s as [|x s]; [reflexivity|].
  destruct (to_number (x :: s)); reflexivity.
Qed.

Lemma process_entry_some_no_missing (table : rates) (v : pyval)
    (e8 : dict pyval) (ws : list warning) :
  process_entry table v = Ok (Some e8, ws) ->
  filter is_missing_warning ws = [].
Proof.
  intros H.
  destruct (process_entry_some _ _ _ _ H)
    as (entry & e4 & w2 & _ & _ & _ & _ & _ & Hconv & _ & ->).
  rewrite !filter_app, !clean_taxable_field_no_missing.
  assert (H1 : filter is_missing_warning
                 (snd (coerce_source_amount entry
                         (dict_get_default entry k_amount_source (PInt 0))))
               = []).
  { destruct (dict_get_default entry k_amount_source (PInt 0));
      try reflexivity.
    simpl. destruct (to_number s); reflexivity. }
  assert (H2 : filter is_missing_warning w2 = []).
  { revert Hconv. unfold convert_to_eur.
    destruct (negb (pystr_eqb (currency_of entry) (u "EUR")));
      [destruct (dict_get table (currency_of entry)) as [rate|];
       [destruct (float_truthy rate);
        [destruct (py_mul_float (amount_of entry) rate); cbn [bind]|]|]|];
      intros [= <- <-] || discriminate; reflexivity. }
  assert (H5 : filter is_missing_warning
                 (snd (classify_code (cleaned e4) (form_of entry)
                         (code_of entry))) = []).
  { unfold classify_code.
    destruct (dict_get TAX_CODES (form_of entry)) as [codes|];
      [destruct (dict_get codes (code_of entry))|]; reflexivity. }
  rewrite H1, H2, H5. reflexivity.
Qed.

Lemma run_loop_count (table : rates) (entries : list pyval)
    (valid : list (dict pyval)) (warns : list warning) :
  run_loop table ([], []) entries = Ok (valid, warns) ->
  (List.length valid + List.length (filter is_missing_warning warns)
   = List.length entries)%nat.
Proof.
  revert valid warns.
  induction entries as [|entry rest IH]; intros valid warns H.
  - injection H as <- <-. reflexivity.
  - cbn [run_loop] in H. unfold loop_body in H.
    destruct (process_entry table entry) as [[kept ws]|] eqn:Hp;
      cbn [bind] in H; [|discriminate H].
    destruct kept as [e|]; cbn [bind] in H; rewrite run_loop_from in H;
      destruct (run_loop table ([], []) rest) as [[v w]|];
      cbn [bind fst snd] in H; try discriminate H;
      injection H as <- <-; specialize (IH v w eq_refl);
      rewrite filter_app, !length_app.
    + rewrite (process_entry_some_no_missing _ _ _ _ Hp).
      cbn [List.length app]. lia.
    + destruct (process_entry_none _ _ _ Hp) as (d & _ & _ & ->).
      cbn [List.length app filter is_missing_warning]. lia.
Qed.

(** X4.  No entry goes unaccounted for: when the validator returns, every
    entry of the list was either appended to the validated entries or
    reported by a missing-fields warning, so the two counts add up to the
    length of the list. *)
Theorem every_entry_is_kept_or_reported (table : rates)
    (entries : list pyval) (valid : list (dict pyval))
    (warns : list warning) :
  validate_and_clean_data table (PList entries) = Ok (valid, warns) ->
  (List.length valid + List.length (filter is_missing_warning warns)
   = List.length entries)%nat.
Proof. rewrite validate_list. apply run_loop_count. Qed.

(** ** What every validated entry looks like *)

Lemma run_loop_all (P : dict pyval -> Prop) (table : rates) :
  (forall v e ws, process_entry table v = Ok (Some e, ws) -> P e) ->
  forall entries st st',
    run_loop table st entries = Ok st' ->
    Forall P (fst st) -> Forall P (fst st').
Proof.
  intros HP. induction entries as [|entry rest IH]; intros st st' H Hst.
  - now injection H as <-.
  - cbn [run_loop] in H.
    destruct (loop_body table st entry) as [st1|] eqn:Hbody;
      cbn [bind] in H; [|discriminate H].
    apply (IH st1 st' H). destruct st as [valid warns].
    unfold loop_body in Hbody.
    destruct (process_entry table entry) as [[kept w]|] eqn:Hproc;
      cbn [bind] in Hbody; [|discriminate Hbody].
    destruct kept as [e|]; injection Hbody as <-; cbn [fst] in *;
      [|exact Hst].
    apply Forall_app. split; [exact Hst|].
    constructor; [|constructor]. exact (HP _ _ _ Hproc).
Qed.

Lemma validated_entries_all (P : dict pyval -> Prop) (table : rates) :
  (forall v e ws, process_entry table v = Ok (Some e, ws) -> P e) ->
  forall parsed_data valid warns,
    validate_and_clean_data table parsed_data = Ok (valid, warns) ->
    Forall P valid.
Proof.
  intros HP parsed_data valid warns. unfold validate_and_clean_data.
  destruct (negb (truthy parsed_data)).
  - intros [= <- _]. constructor.
  - destruct (py_iter parsed_data) as [entries|]; cbn [bind];
      [|discriminate].
    intros H. apply (run_loop_all P table HP _ _ _ H). constructor.
Qed.

(** The fields of the appended entry, read off the entry it came from. *)
Lemma appended_entry_get (table : rates) (entry e4 e8 : dict pyval)
    (w2 : list warning) :
  convert_to_eur table (normalized entry) (currency_of entry)
    (amount_of entry) = Ok (e4, w2) ->
  special_rules (classified entry e4) (form_of entry) (code_of entry)
  = Ok e8 ->
  dict_get e8 k_form = Some (PStr (form_of entry))
  /\ dict_get e8 k_code = Some (PStr (code_of entry))
  /\ dict_get e8 k_amount_source = Some (amount_of entry)
  /\ dict_get e8 k_taxable_france
     = Some (cleaned_value (dict_get entry k_taxable_france))
  /\ dict_get e8 k_taxable_source
     = Some (cleaned_value (dict_get entry k_taxable_source))
  /\ dict_get e8 k_valid_code
     = Some (PBool match reference_description (form_of entry)
                           (code_of entry) with
                   | Some _ => true
                   | None => false
                   end)
  /\ dict_get e8 k_code_description
     = Some (PStr match reference_description (form_of entry)
                          (code_of entry) with
                  | Some description => description
                  | None => []
                  end)
  /\ exists eur, dict_get e8 k_amount_eur = Some eur.
Proof.
  intros Hconv Hspec.
  destruct (convert_to_eur_set _ _ _ _ _ _ Hconv) as [eur ->].
  rewrite !(special_rules_get _ _ _ _ _ Hspec) by (vm_compute; reflexivity).
  repeat split.
  - rewrite classified_get, cleaned_get by (vm_compute; reflexivity).
    unfold normalized. get_set. reflexivity.
  - rewrite classified_get, cleaned_get by (vm_compute; reflexivity).
    unfold normalized. get_set. reflexivity.
  - rewrite classified_get, cleaned_get by (vm_compute; reflexivity).
    unfold normalized. get_set. reflexivity.
  - rewrite classified_get by (vm_compute; reflexivity).
    rewrite cleaned_get_france. get_set.
    rewrite normalized_get by (vm_compute; reflexivity). reflexivity.
  - rewrite classified_get by (vm_compute; reflexivity).
    unfold cleaned. rewrite !clean_taxable_field_fst. get_set.
    rewrite normalized_get by (vm_compute; reflexivity). reflexivity.
  - unfold classified, classify_code, reference_description.
    destruct (dict_get TAX_CODES (form_of entry)) as [codes|];
      [destruct (dict_get codes (code_of entry))|];
      cbn [fst]; get_set; reflexivity.
  - unfold classified, classify_code, reference_description.
    destruct (dict_get TAX_CODES (form_of entry)) as [codes|];
      [destruct (dict_get codes (code_of entry))|];
      cbn [fst]; get_set; reflexivity.
  - exists eur.
    rewrite classified_get, cleaned_get by (vm_compute; reflexivity).
    get_set. reflexivity.
Qed.

(** X5.  Whatever was parsed, every entry the validator returns has the
    five required fields and the five fields the validator adds: the EUR
    amount, the two taxable amounts, the validity flag and the code
    description. *)
Theorem validated_entries_have_all_fields (table : rates)
    (parsed_data : pyval) (valid : list (dict pyval))
    (warns : list warning) :
  validate_and_clean_data table parsed_data = Ok (valid, warns) ->
  Forall (fun e =>
            forall k, In k (required_fields ++ derived_fields) ->
                      dict_mem e k = true) valid.
Proof.
  apply validated_entries_all. intros v e8 ws H k Hk.
  apply in_app_or in Hk as [Hk|Hk].
  - apply (proj1 (missing_fields_nil e8)
             (process_entry_some_fields _ _ _ _ H) k Hk).
  - destruct (process_entry_some _ _ _ _ H)
      as (entry & e4 & w2 & _ & _ & _ & _ & _ & Hconv & Hspec & _).
    destruct (appended_entry_get _ _ _ _ _ Hconv Hspec)
      as (_ & _ & _ & Hfr & Hso & Hv & Hd & eur & Heur).
    unfold dict_mem.
    repeat (destruct Hk as [<-|Hk];
            [first [now rewrite Hfr | now rewrite Hso | now rewrite Hv
                   | now rewrite Hd | now rewrite Heur]|]).
    destruct Hk.
Qed.

(** X6.  Whatever was parsed, the validity flag of every returned entry
    tells whether the reference table has the entry's form and code as the
    entry now holds them, and the code description is the one of the table,
    or empty when the table has none. *)
Theorem validity_flag_agrees_with_the_table (table : rates)
    (parsed_data : pyval) (valid : list (dict pyval))
    (warns : list warning) :
  validate_and_clean_data table parsed_data = Ok (valid, warns) ->
  Forall (fun e =>
            exists form code,
              dict_get e k_form = Some (PStr form)
              /\ dict_get e k_code = Some (PStr code)
              /\ match reference_description form code with
                 | Some description =>
                     dict_get e k_valid_code = Some (PBool true)
                     /\ dict_get e k_code_description
                        = Some (PStr description)
                 | None =>
                     dict_get e k_valid_code = Some (PBool false)
                     /\ dict_get e k_code_description = Some (PStr [])
                 end) valid.
Proof.
  apply validated_entries_all. intros v e8 ws H.
  destruct (process_entry_some _ _ _ _ H)
    as (entry & e4 & w2 & _ & _ & _ & _ & _ & Hconv & Hspec & _).
  destruct (appended_entry_get _ _ _ _ _ Hconv Hspec)
    as (Hf & Hc & _ & _ & _ & Hv & Hd & _).
  exists (form_of entry), (code_of entry).
  split; [exact Hf|]. split; [exact Hc|].
  destruct (reference_description (form_of entry) (code_of entry));
    split; assumption.
Qed.

Lemma lstrip_idem (s : pystr) : lstrip (lstrip s) = lstrip s.
Proof.
  induction s as [|c s IH]; [reflexivity|].
  cbn [lstrip]. destruct (is_space c) eqn:E; [exact IH|].
  cbn [lstrip]. now rewrite E.
Qed.

Lemma lstrip_split (s : pystr) : exists sp, s = sp ++ lstrip s.
Proof.
  induction s as [|c s [sp IH]]; [now exists []|].
  cbn [lstrip]. destruct (is_space c).
  - exists (c :: sp). cbn [app]. now rewrite <- IH.
  - now exists [].
Qed.

Lemma lstrip_length (s : pystr) :
  (List.length (lstrip s) <= List.length s)%nat.
Proof.
  induction s as [|c s IH]; [apply le_n|].
  cbn [lstrip]. destruct (is_space c); cbn [List.length]; lia.
Qed.

(** Stripping the end of a string that has no space in front leaves none
    in front. *)
Lemma lstrip_rstrip (t : pystr) :
  lstrip t = t -> lstrip (rev (lstrip (rev t))) = rev (lstrip (rev t)).
Proof.
  intros Ht. destruct (lstrip_split (rev t)) as [sp Hsp].
  assert (E : t = rev (lstrip (rev t)) ++ rev sp).
  { rewrite <- rev_app_distr, <- Hsp. symmetry. apply rev_involutive. }
  destruct (rev (lstrip (rev t))) as [|c r]; [reflexivity|].
  cbn [lstrip]. destruct (is_space c) eqn:Ec; [|reflexivity].
  exfalso. rewrite E in Ht. cbn [app lstrip] in Ht. rewrite Ec in Ht.
  pose proof (lstrip_length (r ++ rev sp)) as Hlen.
  rewrite Ht in Hlen. cbn [List.length] in Hlen. lia.
Qed.

Lemma strip_idem (s : pystr) : strip (strip s) = strip s.
Proof.
  unfold strip.
  rewrite (lstrip_rstrip (lstrip s) (lstrip_idem s)).
  now rewrite rev_involutive, lstrip_idem.
Qed.

Lemma normalize_code_fixed (code : pystr) :
  normalize_code (normalize_code code) = normalize_code code.
Proof.
  assert (H : Forall (fun c => is_digit_or_capital c = true)
                (normalize_code code)) by apply filter_Forall.
  unfold normalize_code at 1. rewrite (upper_fixed _ H). now apply filter_all.
Qed.

(** X7.  Whatever was parsed, every returned entry is in normal form: its
    form is a string without space at either end, its code a string of
    digits and capital letters only, its source amount is not a string any
    more, and each of its two taxable amounts is either blank or not a
    string. *)
Theorem validated_entries_are_normalized (table : rates)
    (parsed_data : pyval) (valid : list (dict pyval))
    (warns : list warning) :
  validate_and_clean_data table parsed_data = Ok (valid, warns) ->
  Forall (fun e =>
            exists form code,
              dict_get e k_form = Some (PStr form)
              /\ dict_get e k_code = Some (PStr code)
              /\ strip form = form
              /\ Forall (fun c => is_digit_or_capital c = true) code
              /\ normalize_code code = code
              /\ field_is (fun v => negb (is_str v)) e k_amount_source = true
              /\ field_is blank_or_not_str e k_taxable_france = true
              /\ field_is blank_or_not_str e k_taxable_source = true) valid.
Proof.
  apply validated_entries_all. intros v e8 ws H.
  destruct (process_entry_some _ _ _ _ H)
    as (entry & e4 & w2 & _ & _ & _ & _ & _ & Hconv & Hspec & _).
  destruct (appended_entry_get _ _ _ _ _ Hconv Hspec)
    as (Hf & Hc & Ha & Hfr & Hso & _).
  assert (Hclean : forall x, blank_or_not_str (cleaned_value x) = true).
  { intros [[| | | |[|c s]| |]|]; try reflexivity.
    cbn [cleaned_value]. destruct (to_number (c :: s)); reflexivity. }
  exists (form_of entry), (code_of entry).
  unfold field_is. rewrite Hf, Hc, Ha, Hfr, Hso, !Hclean.
  repeat split.
  - apply strip_idem.
  - apply filter_Forall.
  - apply normalize_code_fixed.
  - unfold amount_of.
    destruct (dict_get_default entry k_amount_source (PInt 0));
      try reflexivity.
    simpl. destruct (to_number s); reflexivity.
Qed.

Lemma clean_taxable_field_quiet (field : pystr) (e : dict pyval) :
  field_absent_or taxable_reads e field = true ->
  snd (clean_taxable_field field e) = [].
Proof.
  unfold field_absent_or, clean_taxable_field, taxable_reads.
  destruct (dict_get e field) as [v|]; [|reflexivity].
  destruct v; cbn [is_empty_str]; try reflexivity.
  destruct s as [|c s]; [reflexivity|]. cbn [orb amount_reads].
  destruct (to_number (c :: s)); [reflexivity|discriminate].
Qed.

(** X8.  No false alarm: an entry of the data model with the required
    fields, whose amounts are numbers or strings that read as numbers,
    whose currency is EUR or has a rate in the table, and whose form and
    code are in the reference table, is appended without any warning. *)
Theorem clean_entry_gives_no_warning (table : rates) (entry : dict pyval) :
  missing_fields entry = [] -> well_typed entry = true ->
  field_is amount_reads entry k_amount_source = true ->
  field_absent_or taxable_reads entry k_taxable_france = true ->
  field_absent_or taxable_reads entry k_taxable_source = true ->
  has_rate table (currency_of entry) = true ->
  reference_description (form_of entry) (code_of entry) <> None ->
  exists entry', process_entry table (PDict entry) = Ok (Some entry', []).
Proof.
  intros Hm Ht Hamount Hfr Hso Hrate Hcode.
  destruct (process_entry_typed table entry Hm Ht)
    as (e4' & w2' & e8 & w1' & w34' & _ & _ & Hproc & _).
  exists e8. rewrite Hproc. f_equal. f_equal.
  destruct (process_entry_some _ _ _ _ Hproc)
    as (d & e4 & w2 & Hd & _ & _ & _ & _ & Hconv & _ & ->).
  injection Hd as <-.
  destruct (convert_to_eur_set _ _ _ _ _ _ Hconv) as [eur He4].
  assert (H1 : snd (coerce_source_amount entry
                      (dict_get_default entry k_amount_source (PInt 0)))
               = []).
  { unfold field_is in Hamount. unfold dict_get_default.
    destruct (dict_get entry k_amount_source) as [a|]; [|reflexivity].
    destruct a; try reflexivity. cbn in Hamount |- *.
    destruct (to_number s); [reflexivity|discriminate]. }
  assert (H2 : w2 = []).
  { revert Hconv. unfold convert_to_eur. unfold has_rate in Hrate.
    destruct (pystr_eqb (currency_of entry) (u "EUR")); cbn [negb orb] in *.
    - now intros [= _ <-].
    - destruct (dict_get table (currency_of entry)) as [rate|];
        [|discriminate Hrate].
      rewrite Hrate.
      destruct (py_mul_float (amount_of entry) rate); cbn [bind];
        [now intros [= _ <-]|discriminate]. }
  assert (H3 : snd (clean_taxable_field k_taxable_france e4) = []).
  { apply clean_taxable_field_quiet. unfold field_absent_or.
    rewrite He4. get_set.
    rewrite normalized_get by (vm_compute; reflexivity). exact Hfr. }
  assert (H4 : snd (clean_taxable_field k_taxable_source
                      (fst (clean_taxable_field k_taxable_france e4))) = []).
  { apply clean_taxable_field_quiet. unfold field_absent_or.
    rewrite clean_taxable_field_fst, He4. get_set.
    rewrite normalized_get by (vm_compute; reflexivity). exact Hso. }
  assert (H5 : snd (classify_code (cleaned e4) (form_of entry)
                      (code_of entry)) = []).
  { unfold classify_code. unfold reference_description in Hcode.
    destruct (dict_get TAX_CODES (form_of entry)) as [codes|];
      [destruct (dict_get codes (code_of entry))|];
      try reflexivity; now contradiction Hcode. }
  rewrite H1, H2, H3, H4, H5. reflexivity.
Qed.

(** X9.  Spaces and the choice between comma and point do not bear on how
    a string amount is read: a space put anywhere in it changes neither
    the source amount the validator stores nor whether it warns, and
    neither does a comma written for a point. *)
Theorem amount_reading_is_tolerant (entry : dict pyval) (a b : pystr) :
  to_number (a ++ u " " ++ b) = to_number (a ++ b)
  /\ to_number (a ++ u "," ++ b) = to_number (a ++ u "." ++ b)
  /\ coerce_source_amount entry (PStr (a ++ u " " ++ b))
     = match to_number (a ++ b) with
       | Some x => (PFloat x, [])
       | None =>
           (PInt 0, [W_amount (a ++ u " " ++ b) (description_of entry)])
       end
  /\ fst (coerce_source_amount entry (PStr (a ++ u "," ++ b)))
     = fst (coerce_source_amount entry (PStr (a ++ u "." ++ b))).
Proof.
  assert (Hsp : to_number (a ++ u " " ++ b) = to_number (a ++ b)).
  { unfold to_number, replace_comma_by_dot, remove_spaces.
    now rewrite !map_app, !filter_app. }
  assert (Hco : to_number (a ++ u "," ++ b) = to_number (a ++ u "." ++ b)).
  { unfold to_number, replace_comma_by_dot. now rewrite !map_app. }
  split; [exact Hsp|]. split; [exact Hco|]. split.
  - cbn [coerce_source_amount]. rewrite Hsp.
    destruct (to_number (a ++ b)); reflexivity.
  - cbn [coerce_source_amount fst]. rewrite Hco.
    destruct (to_number (a ++ u "." ++ b)); reflexivity.
Qed.

(** The fields the validator does not write. *)
Lemma appended_entry_other (table : rates) (entry e4 e8 : dict pyval)
    (w2 : list warning) (k : pystr) :
  convert_to_eur table (normalized entry) (currency_of entry)
    (amount_of entry) = Ok (e4, w2) ->
  special_rules (classified entry e4) (form_of entry) (code_of entry)
  = Ok e8 ->
  existsb (pystr_eqb k) written_fields = false ->
  dict_get e8 k = dict_get entry k.
Proof.
  intros Hconv Hspec Hk. cbn [existsb written_fields] in Hk.
  repeat (apply orb_false_iff in Hk as [? Hk]).
  assert (Hsym : forall k', pystr_eqb k k' = false -> pystr_eqb k' k = false).
  { intros k' E. apply pystr_eqb_neq. apply pystr_eqb_neq in E. congruence. }
  destruct (convert_to_eur_set _ _ _ _ _ _ Hconv) as [eur ->].
  rewrite (special_rules_get _ _ _ _ _ Hspec) by (now apply Hsym).
  rewrite classified_get, cleaned_get by (now apply Hsym).
  rewrite dict_get_set, (Hsym k_amount_eur) by assumption.
  apply normalized_get; now apply Hsym.
Qed.

(** X10.  Apart from the fields it is there to write, the validator hands
    an entry on as it received it: every other field of the appended entry,
    the description and the source currency among them, holds what the
    parsed entry held (so the currency keeps the case it was written in). *)
Theorem other_fields_are_left_alone (table : rates) (v : pyval)
    (e8 : dict pyval) (ws : list warning) :
  process_entry table v = Ok (Some e8, ws) ->
  exists entry,
    v = PDict entry
    /\ (forall k, existsb (pystr_eqb k) written_fields = false ->
                  dict_get e8 k = dict_get entry k)
    /\ dict_get e8 k_description = dict_get entry k_description
    /\ dict_get e8 k_source_currency = dict_get entry k_source_currency.
Proof.
  intros H.
  destruct (process_entry_some _ _ _ _ H)
    as (entry & e4 & w2 & -> & _ & _ & _ & _ & Hconv & Hspec & _).
  exists entry. split; [reflexivity|].
  assert (Hall : forall k, existsb (pystr_eqb k) written_fields = false ->
                           dict_get e8 k = dict_get entry k)
    by (intros k; exact (appended_entry_other _ _ _ _ _ k Hconv Hspec)).
  split; [exact Hall|]. split; apply Hall; vm_compute; reflexivity.
Qed.

(** ** [normalize_code], character by character *)

Lemma normalize_code_app (a b : pystr) :
  normalize_code (a ++ b) = normalize_code a ++ normalize_code b.
Proof.
  unfold normalize_code, upper. now rewrite flat_map_app, filter_app.
Qed.

Lemma normalize_code_ascii (c : N) :
  (c < 128)%N ->
  normalize_code [c]
  = if in_range 97 122 c then [(c - 32)%N]
    else if is_digit_or_capital c then [c] else [].
Proof.
  intros Hc. unfold normalize_code, upper, upper_char.
  cbn [flat_map]. rewrite app_nil_r.
  destruct (in_range 97 122 c) eqn:E.
  - cbn [filter]. replace (is_digit_or_capital (c - 32)) with true;
      [reflexivity|].
    symmetry. unfold is_digit_or_capital, in_range in *.
    apply andb_true_iff in E as [E1 E2].
    apply N.leb_le in E1. apply N.leb_le in E2.
    apply orb_true_iff. right. apply andb_true_iff.
    split; apply N.leb_le; lia.
  - rewrite (proj2 (N.ltb_lt _ _) Hc). cbn [filter].
    destruct (is_digit_or_capital c); reflexivity.
Qed.

(** X11.  [normalize_code] works character by character: the normal form
    of a concatenation is the concatenation of the normal forms; an ASCII
    small letter gives its capital, a digit or a capital letter itself,
    any other ASCII character nothing (so case, spaces and punctuation do
    not tell codes apart); and the codes it leaves as they are are exactly
    the strings of digits and capital letters. *)
Theorem normalize_code_by_character (a b : pystr) (c : N) :
  normalize_code (a ++ b) = normalize_code a ++ normalize_code b
  /\ ((c < 128)%N ->
      normalize_code [c]
      = if in_range 97 122 c then [(c - 32)%N]
        else if is_digit_or_capital c then [c] else [])
  /\ (normalize_code a = a
      <-> Forall (fun x => is_digit_or_capital x = true) a).
Proof.
  split; [apply normalize_code_app|]. split; [apply normalize_code_ascii|].
  split.
  - intros H. rewrite <- H. apply filter_Forall.
  - intros H. unfold normalize_code. rewrite (upper_fixed _ H).
    now apply filter_all.
Qed.

(** ** The text of a document *)

Lemma in_range_spec (lo hi x : N) :
  in_range lo hi x = true -> (lo <= x <= hi)%N.
Proof.
  unfold in_range. intros H. apply andb_true_iff in H as [H1 H2].
  split; now apply N.leb_le.
Qed.

Lemma second_ok_spec (b0 b1 : N) :
  second_ok b0 b1 = true ->
  (128 <= b1 <= 191)%N
  /\ (b0 = 224 -> 160 <= b1)%N /\ (b0 = 237 -> b1 <= 159)%N
  /\ (b0 = 240 -> 144 <= b1)%N /\ (b0 = 244 -> b1 <= 143)%N.
Proof.
  unfold second_ok, is_cont.
  destruct (N.eqb_spec b0 224); [intros H; apply in_range_spec in H; lia|].
  destruct (N.eqb_spec b0 237); [intros H; apply in_range_spec in H; lia|].
  destruct (N.eqb_spec b0 240); [intros H; apply in_range_spec in H; lia|].
  destruct (N.eqb_spec b0 244); intros H; apply in_range_spec in H; lia.
Qed.

Lemma utf8_head_scalar (bs : list N) (cp : N) (n : nat) :
  utf8_head bs = Some (cp, n) -> is_scalar cp = true.
Proof.
  assert (Hs : forall x, (x < 55296 \/ 57344 <= x <= 1114111)%N ->
                         is_scalar x = true).
  { intros x [H|H]; unfold is_scalar; apply orb_true_iff.
    - left. now apply N.ltb_lt.
    - right. apply in_range_true; lia. }
  unfold utf8_head. destruct bs as [|b0 rest]; [discriminate|].
  destruct (N.ltb_spec b0 128) as [H0|H0].
  { intros [= <- _]. apply Hs. lia. }
  destruct (in_range 194 223 b0) eqn:E2.
  { apply in_range_spec in E2.
    destruct rest as [|b1 rest]; [discriminate|].
    destruct (is_cont b1) eqn:E; [|discriminate].
    apply in_range_spec in E. intros [= <- _]. apply Hs. lia. }
  destruct (in_range 224 239 b0) eqn:E3.
  { apply in_range_spec in E3.
    destruct rest as [|b1 [|b2 rest]]; try discriminate.
    destruct (second_ok b0 b1) eqn:E; [|discriminate].
    destruct (is_cont b2) eqn:Ec; [|discriminate].
    apply second_ok_spec in E. apply in_range_spec in Ec.
    intros [= <- _]. apply Hs. lia. }
  destruct (in_range 240 244 b0) eqn:E4; [|discriminate].
  apply in_range_spec in E4.
  destruct rest as [|b1 [|b2 [|b3 rest]]]; try discriminate.
  destruct (second_ok b0 b1) eqn:E; [|discriminate].
  destruct (is_cont b2) eqn:Ec; [|discriminate].
  destruct (is_cont b3) eqn:Ed; [|discriminate].
  apply second_ok_spec in E. apply in_range_spec in Ec.
  apply in_range_spec in Ed.
  intros [= <- _]. apply Hs. lia.
Qed.

Lemma decode_from_scalar (bs : list N) (skip : nat) :
  Forall (fun c => is_scalar c = true) (decode_from skip bs).
Proof.
  revert skip. induction bs as [|b bs IH]; intros skip; [constructor|].
  cbn [decode_from]. destruct skip as [|k]; [|apply IH].
  destruct (utf8_head (b :: bs)) as [[cp n]|] eqn:E; [|apply IH].
  constructor; [exact (utf8_head_scalar _ _ _ E)|apply IH].
Qed.

Lemma decode_ascii (bs : list N) :
  Forall (fun b => (b < 128)%N) bs -> decode_utf8_ignore bs = bs.
Proof.
  unfold decode_utf8_ignore.
  induction 1 as [|b bs Hb _ IH]; [reflexivity|].
  cbn [decode_from]. rewrite (utf8_head_1 _ _ Hb). cbn [Nat.pred].
  now rewrite IH.
Qed.

(** X12.  The text of a [.txt] document holds Unicode scalar values only,
    no surrogate and nothing above U+10FFFF, whatever the bytes; encoded
    again as UTF-8 it decodes to itself, so what the extractor kept is
    stable; and a document of ASCII bytes comes through byte for byte. *)
Theorem txt_text_is_well_formed (data : list byte) :
  Forall (fun c => is_scalar c = true)
    (extract_text_from_file (u ".txt") data)
  /\ decode_utf8_ignore
       (encode_utf8 (extract_text_from_file (u ".txt") data))
     = extract_text_from_file (u ".txt") data
  /\ (Forall (fun b => (Byte.to_N b < 128)%N) data ->
      extract_text_from_file (u ".txt") data = map Byte.to_N data).
Proof.
  assert (E : extract_text_from_file (u ".txt") data
              = decode_utf8_ignore (map Byte.to_N data)).
  { unfold extract_text_from_file.
    replace (pystr_eqb (u ".txt") (u ".txt")) with true
      by (vm_compute; reflexivity).
    reflexivity. }
  rewrite E.
  assert (Hs : Forall (fun c => is_scalar c = true)
                 (decode_utf8_ignore (map Byte.to_N data)))
    by apply decode_from_scalar.
  split; [exact Hs|]. split; [now apply decode_encode|].
  intros H. apply decode_ascii. now apply Forall_map.
Qed.

(** ** The parser and the blanks around a response *)

Lemma lstrip_spaces_app (sp s : pystr) :
  forallb is_space sp = true -> lstrip (sp ++ s) = lstrip s.
Proof.
  induction sp as [|c sp IH]; [reflexivity|].
  cbn [forallb app lstrip]. intros H. apply andb_true_iff in H as [-> H].
  now apply IH.
Qed.

Lemma lstrip_app (s t : pystr) :
  lstrip s <> [] -> lstrip (s ++ t) = lstrip s ++ t.
Proof.
  induction s as [|c s IH]; [now intros []|].
  cbn [app lstrip]. destruct (is_space c); [exact IH|reflexivity].
Qed.

Lemma lstrip_nil_spaces (s : pystr) :
  lstrip s = [] -> forallb is_space s = true.
Proof.
  induction s as [|c s IH]; [reflexivity|].
  cbn [lstrip forallb]. destruct (is_space c); [exact IH|discriminate].
Qed.

Lemma forallb_rev {A} (p : A -> bool) (l : list A) :
  forallb p l = true -> forallb p (rev l) = true.
Proof.
  rewrite !forallb_forall. intros H x Hx. apply H. now apply in_rev.
Qed.

Lemma strip_padding (sp1 sp2 s : pystr) :
  forallb is_space sp1 = true -> forallb is_space sp2 = true ->
  strip (sp1 ++ s ++ sp2) = strip s.
Proof.
  intros H1 H2. unfold strip. rewrite (lstrip_spaces_app _ _ H1).
  destruct (lstrip s) as [|c t] eqn:E.
  - rewrite (lstrip_spaces_app _ _ (lstrip_nil_spaces _ E)).
    rewrite <- (app_nil_r sp2), (lstrip_spaces_app _ _ H2). reflexivity.
  - rewrite lstrip_app by (rewrite E; discriminate). rewrite E.
    rewrite rev_app_distr.
    now rewrite (lstrip_spaces_app _ _ (forallb_rev _ _ H2)).
Qed.

(** X13.  Blanks around a response do not count: with any white space put
    before and after it, a response is parsed to the same value, so a
    response of blanks alone is parsed like the empty one, to the empty
    list. *)
Theorem parse_ignores_padding (sp1 sp2 text : pystr) :
  forallb is_space sp1 = true -> forallb is_space sp2 = true ->
  safe_parse_json (Some (sp1 ++ text ++ sp2)) = safe_parse_json (Some text)
  /\ safe_parse_json (Some (sp1 ++ sp2)) = PList [].
Proof.
  intros H1 H2.
  assert (H : forall t, safe_parse_json (Some (sp1 ++ t ++ sp2))
                        = safe_parse_json (Some t)).
  { intros t. unfold safe_parse_json. rewrite (strip_padding _ _ _ H1 H2).
    destruct t as [|c t].
    - replace (strip []) with (@nil N) by reflexivity.
      cbn [truthy]. now rewrite andb_false_r.
    - replace (truthy (PStr (sp1 ++ (c :: t) ++ sp2))) with true;
        [reflexivity|].
      destruct sp1; reflexivity. }
  split; [apply H|]. apply (H []).
Qed.

(** ** The sidebar *)

Lemma dict_mem_keys {V} (d : dict V) (k : pystr) :
  dict_mem d k = true <-> In k (map fst d).
Proof.
  unfold dict_mem. induction d as [|[k0 v0] d IH]; cbn [dict_get map fst In].
  - split; [discriminate|contradiction].
  - destruct (pystr_eqb k0 k) eqn:E.
    + apply pystr_eqb_eq in E. split; [now left|reflexivity].
    + apply pystr_eqb_neq in E. rewrite IH. split; [now right|].
      now intros [?|?].
Qed.







(** ** The text sent to the model *)



(** ** Validating what was validated *)

Lemma coerce_source_amount_not_str (e : dict pyval) (a : pyval) :
  is_str a = false -> coerce_source_amount e a = (a, []).
Proof. destruct a; try reflexivity. discriminate. Qed.

Lemma amount_of_not_str (entry : dict pyval) : is_str (amount_of entry) = false.
Proof.
  unfold amount_of.
  destruct (dict_get_default entry k_amount_source (PInt 0)); try reflexivity.
  cbn [coerce_source_amount]. destruct (to_number s); reflexivity.
Qed.

Lemma cleaned_value_settled (x : option pyval) :
  blank_or_not_str (cleaned_value x) = true.
Proof.
  destruct x as [[|b|z|f|s|l|d]|]; try reflexivity.
  destruct s as [|c s]; [reflexivity|].
  cbn [cleaned_value]. destruct (to_number (c :: s)); reflexivity.
Qed.

Lemma clean_taxable_field_settled (field : pystr) (e : dict pyval)
    (v : pyval) :
  dict_get e field = Some v -> blank_or_not_str v = true ->
  clean_taxable_field field e = (e, []).
Proof.
  intros Hget Hv. unfold clean_taxable_field. rewrite Hget.
  destruct v as [|b|z|f|s|l|d]; try reflexivity.
  destruct s as [|c s]; [|discriminate Hv].
  cbn [is_empty_str]. now rewrite (dict_set_same _ _ _ Hget).
Qed.

Lemma convert_to_eur_again (table : rates) (e e' : dict pyval) (cur : pystr)
    (a : pyval) (e4 : dict pyval) (w2 : list warning) :
  convert_to_eur table e cur a = Ok (e4, w2) ->
  description_of e' = description_of e ->
  dict_get e' k_amount_eur = dict_get e4 k_amount_eur ->
  convert_to_eur table e' cur a = Ok (e', w2).
Proof.
  unfold convert_to_eur. intros H Hd.
  destruct (negb (pystr_eqb cur (u "EUR")));
    [destruct (dict_get table cur) as [rate|];
     [destruct (float_truthy rate);
      [destruct (py_mul_float a rate); cbn [bind] in *|]|]|];
    try discriminate H; injection H as <- <-;
    rewrite dict_get_set, pystr_eqb_refl; intros Hget;
    rewrite (dict_set_same _ _ _ Hget), ?Hd; reflexivity.
Qed.

Lemma classify_code_settled (e : dict pyval) (form code : pystr) :
  dict_get e k_valid_code
  = Some (PBool match reference_description form code with
                | Some _ => true
                | None => false
                end) ->
  dict_get e k_code_description
  = Some (PStr match reference_description form code with
               | Some description => description
               | None => []
               end) ->
  fst (classify_code e form code) = e.
Proof.
  unfold classify_code, reference_description. intros Hv Hd.
  destruct (dict_get TAX_CODES form) as [codes|];
    [destruct (dict_get codes code)|];
    cbn [fst]; now rewrite (dict_set_same _ _ _ Hv), (dict_set_same _ _ _ Hd).
Qed.

Lemma classify_code_snd (e e' : dict pyval) (form code : pystr) :
  description_of e = description_of e' ->
  snd (classify_code e form code) = snd (classify_code e' form code).
Proof.
  intros H. unfold classify_code.
  destruct (dict_get TAX_CODES form) as [codes|];
    [destruct (dict_get codes code)|]; cbn [snd]; now rewrite ?H.
Qed.

Lemma special_rules_settled (e : dict pyval) (form code : pystr) :
  dict_get e k_form = Some (PStr form) ->
  dict_get e k_code = Some (PStr code) ->
  micro_bic_applies e = false ->
  special_rules e form code = Ok e.
Proof.
  unfold micro_bic_applies, special_rules, str_field. intros -> -> H.
  destruct (pystr_eqb form (u "2042") && pystr_eqb code (u "5TE"));
    [|reflexivity].
  cbn [andb] in H. destruct (dict_get e k_taxable_france) as [v|];
    [|reflexivity].
  now rewrite H.
Qed.

Lemma lasting_conversion_warnings (table : rates) (e : dict pyval)
    (cur : pystr) (a : pyval) (e4 : dict pyval) (w2 : list warning) :
  convert_to_eur table e cur a = Ok (e4, w2) ->
  filter lasting_warning w2 = w2.
Proof.
  unfold convert_to_eur.
  destruct (negb (pystr_eqb cur (u "EUR")));
    [destruct (dict_get table cur) as [rate|];
     [destruct (float_truthy rate);
      [destruct (py_mul_float a rate); cbn [bind]|]|]|];
    intros [= <- <-] || discriminate; reflexivity.
Qed.

Lemma lasting_amount_warnings (e : dict pyval) (a : pyval) :
  filter lasting_warning (snd (coerce_source_amount e a)) = [].
Proof.
  destruct a; try reflexivity. cbn [coerce_source_amount].
  destruct (to_number s); reflexivity.
Qed.

Lemma lasting_taxable_warnings (field : pystr) (e : dict pyval) :
  filter lasting_warning (snd (clean_taxable_field field e)) = [].
Proof.
  unfold clean_taxable_field.
  destruct (dict_get e field) as [v|]; [|reflexivity].
  destruct v; cbn [is_empty_str]; try reflexivity.
  destruct s as [|x s]; [reflexivity|].
  destruct (to_number (x :: s)); reflexivity.
Qed.

Lemma lasting_code_warnings (e : dict pyval) (form code : pystr) :
  filter lasting_warning (snd (classify_code e form code))
  = snd (classify_code e form code).
Proof.
  unfold classify_code.
  destruct (dict_get TAX_CODES form) as [codes|];
    [destruct (dict_get codes code)|]; reflexivity.
Qed.

(** The second turn of a validated entry: every step before the Micro-BIC
    rule finds the entry as it would leave it. *)
Lemma process_entry_second_turn (table : rates) (v : pyval)
    (e8 : dict pyval) (ws : list warning) :
  process_entry table v = Ok (Some e8, ws) ->
  process_entry table (PDict e8)
  = (e9 <- special_rules e8 (str_field e8 k_form) (str_field e8 k_code) ;;
     Ok (Some e9, filter lasting_warning ws)).
Proof.
  intros H.
  pose proof (process_entry_some_fields _ _ _ _ H) as Hm8.
  destruct (process_entry_some _ _ _ _ H)
    as (entry & e4 & w2 & -> & Hm & Hf & Hc & Hcur & Hconv & Hspec & ->).
  destruct (appended_entry_get _ _ _ _ _ Hconv Hspec)
    as (Gf & Gc & Ga & Gtf & Gts & Gv & Gd & eur & Geur).
  assert (Hother : forall k, existsb (pystr_eqb k) written_fields = false ->
                             dict_get e8 k = dict_get entry k)
    by (intros k; exact (appended_entry_other _ _ _ _ _ k Hconv Hspec)).
  assert (Gcur : dict_get e8 k_source_currency
                 = Some (PStr (str_field entry k_source_currency))).
  { rewrite Hother by (vm_compute; reflexivity).
    unfold field_is in Hcur. unfold str_field.
    destruct (dict_get entry k_source_currency) as [[|b|z|x|s|l|d]|];
      try discriminate Hcur. reflexivity. }
  assert (Gdesc : description_of e8 = description_of entry).
  { apply description_of_eq. apply Hother. vm_compute. reflexivity. }
  rewrite (process_entry_steps table e8 _ _ _ _ Hm8 Gf Gc Gcur Ga).
  cbv zeta.
  replace (str_field e8 k_form) with (form_of entry)
    by (unfold str_field; now rewrite Gf).
  replace (str_field e8 k_code) with (code_of entry)
    by (unfold str_field; now rewrite Gc).
  replace (strip (form_of entry)) with (form_of entry)
    by (symmetry; apply strip_idem).
  replace (normalize_code (code_of entry)) with (code_of entry)
    by (symmetry; apply normalize_code_fixed).
  rewrite (dict_set_same _ _ _ Gf), (dict_set_same _ _ _ Gc).
  rewrite (coerce_source_amount_not_str _ _ (amount_of_not_str entry)).
  cbn [fst snd]. rewrite (dict_set_same _ _ _ Ga).
  assert (Geur4 : dict_get e8 k_amount_eur = dict_get e4 k_amount_eur).
  { apply (processed_get entry e4 e8 _ Hspec); vm_compute; reflexivity. }
  fold (currency_of entry).
  rewrite (convert_to_eur_again _ _ _ _ _ _ _ Hconv
             (eq_trans Gdesc (eq_sym (description_of_normalized entry)))
             Geur4).
  cbn [bind].
  rewrite (clean_taxable_field_settled _ _ _ Gtf (cleaned_value_settled _)).
  cbn [fst snd].
  rewrite (clean_taxable_field_settled _ _ _ Gts (cleaned_value_settled _)).
  cbn [fst snd].
  rewrite (classify_code_settled _ _ _ Gv Gd).
  destruct (special_rules e8 _ _) as [e9|]; cbn [bind]; [|reflexivity].
  do 2 f_equal.
  rewrite !filter_app, lasting_amount_warnings, !lasting_taxable_warnings,
    (lasting_conversion_warnings _ _ _ _ _ _ Hconv), lasting_code_warnings.
  cbn [app]. f_equal. apply classify_code_snd.
  rewrite Gdesc. symmetry. unfold cleaned.
  apply description_of_eq.
  rewrite !clean_taxable_field_fst. get_set.
  destruct (convert_to_eur_set _ _ _ _ _ _ Hconv) as [x ->]. get_set.
  apply normalized_get; vm_compute; reflexivity.
Qed.

Lemma process_entry_again (table : rates) (v : pyval) (e8 : dict pyval)
    (ws : list warning) :
  process_entry table v = Ok (Some e8, ws) ->
  micro_bic_applies e8 = false ->
  process_entry table (PDict e8)
  = Ok (Some e8, filter lasting_warning ws).
Proof.
  intros H Hrule. rewrite (process_entry_second_turn _ _ _ _ H).
  destruct (process_entry_some _ _ _ _ H)
    as (entry & e4 & w2 & _ & _ & _ & _ & _ & Hconv & Hspec & _).
  destruct (appended_entry_get _ _ _ _ _ Hconv Hspec)
    as (Gf & Gc & _).
  unfold str_field. rewrite Gf, Gc.
  now rewrite (special_rules_settled _ _ _ Gf Gc Hrule).
Qed.

Lemma run_loop_again (table : rates) (entries : list pyval)
    (valid : list (dict pyval)) (warns : list warning) :
  run_loop table ([], []) entries = Ok (valid, warns) ->
  Forall (fun e => micro_bic_applies e = false) valid ->
  run_loop table ([], []) (map PDict valid)
  = Ok (valid, filter lasting_warning warns).
Proof.
  revert valid warns.
  induction entries as [|entry rest IH]; intros valid warns H Hrule.
  - injection H as <- <-. reflexivity.
  - cbn [run_loop] in H. unfold loop_body in H.
    destruct (process_entry table entry) as [[kept ws]|] eqn:Hp;
      cbn [bind] in H; [|discriminate H].
    destruct kept as [e|]; cbn [bind] in H; rewrite run_loop_from in H;
      destruct (run_loop table ([], []) rest) as [[v w]|];
      cbn [bind fst snd] in H; try discriminate H;
      injection H as <- <-; rewrite filter_app.
    + cbn [app] in Hrule. inversion Hrule as [|? ? He Hv]. subst.
      cbn [app map run_loop]. unfold loop_body.
      rewrite (process_entry_again _ _ _ _ Hp He). cbn [bind app].
      rewrite run_loop_from, (IH v w eq_refl Hv). reflexivity.
    + destruct (process_entry_none _ _ _ Hp) as (d & _ & _ & ->).
      cbn [app] in *. apply (IH v w eq_refl Hrule).
Qed.

(** X16.  Validating what was validated changes nothing.  When no
    returned entry is one the Micro-BIC rule applies to (form 2042, code
    5TE, a taxable amount in France that Python takes for true), the
    validator run on the returned entries returns the same entries; of the
    warnings of the first run, those about a currency or a code come again,
    in their order, and no other warning does. *)
Theorem validating_again_changes_nothing (table : rates)
    (entries : list pyval) (valid : list (dict pyval))
    (warns : list warning) :
  validate_and_clean_data table (PList entries) = Ok (valid, warns) ->
  Forall (fun e => micro_bic_applies e = false) valid ->
  validate_and_clean_data table (PList (map PDict valid))
  = Ok (valid, filter lasting_warning warns).
Proof. rewrite !validate_list. apply run_loop_again. Qed.

Lemma special_rules_applied (e : dict pyval) (form code : pystr)
    (e8 : dict pyval) (v : pyval) :
  special_rules e form code = Ok e8 ->
  pystr_eqb form (u "2042") && pystr_eqb code (u "5TE") = true ->
  dict_get e k_taxable_france = Some v -> truthy v = true ->
  exists raw notes,
    py_float v = Ok raw
    /\ e8 = dict_set
              (dict_set
                 (dict_set e k_abatement_amount
                    (PFloat (py_round2 (float_mul raw abatement_rate))))
                 k_after_abatement
                 (PFloat (py_round2 (float_mul raw taxable_share))))
              k_notes (PStr (notes ++ micro_bic_note)).
Proof.
  unfold special_rules. intros H Hfc Hv Ht. rewrite Hfc, Hv, Ht in H.
  destruct (py_float v) as [raw|]; cbn [bind] in H; [|discriminate H].
  cbv zeta in H.
  destruct (dict_get_default _ k_notes (PStr [])) as [|b|z|x|n|l|d];
    cbn [py_add_str bind] in H; try discriminate H.
  injection H as <-. now exists raw, n.
Qed.

(** X17.  The Micro-BIC note is appended at every pass.  A returned entry
    the Micro-BIC rule applies to has notes that end with the note of the
    rule; validated again, it comes back with the note appended once more
    and every other field as it was. *)
Theorem micro_bic_note_is_appended_again (table : rates) (v : pyval)
    (e8 : dict pyval) (ws : list warning) :
  process_entry table v = Ok (Some e8, ws) ->
  micro_bic_applies e8 = true ->
  exists notes e9,
    dict_get e8 k_notes = Some (PStr (notes ++ micro_bic_note))
    /\ process_entry table (PDict e8)
       = Ok (Some e9, filter lasting_warning ws)
    /\ dict_get e9 k_notes
       = Some (PStr ((notes ++ micro_bic_note) ++ micro_bic_note))
    /\ forall k, pystr_eqb k_notes k = false ->
                 dict_get e9 k = dict_get e8 k.
Proof.
  intros H Hrule. rewrite (process_entry_second_turn _ _ _ _ H).
  destruct (process_entry_some _ _ _ _ H)
    as (entry & e4 & w2 & _ & _ & _ & _ & _ & Hconv & Hspec & _).
  destruct (appended_entry_get _ _ _ _ _ Hconv Hspec)
    as (Gf & Gc & _).
  unfold micro_bic_applies in Hrule. unfold str_field in *.
  rewrite Gf, Gc in *.
  apply andb_true_iff in Hrule as [Hfc Htf].
  destruct (dict_get e8 k_taxable_france) as [x|] eqn:Gtf;
    [|discriminate Htf].
  assert (Gtf' : dict_get (classified entry e4) k_taxable_france = Some x).
  { rewrite <- Gtf. symmetry.
    apply (special_rules_get _ _ _ _ _ Hspec); vm_compute; reflexivity. }
  destruct (special_rules_applied _ _ _ _ _ Hspec Hfc Gtf' Htf)
    as (raw & notes & Hraw & He8).
  set (A := PFloat (py_round2 (float_mul raw abatement_rate))) in *.
  set (B := PFloat (py_round2 (float_mul raw taxable_share))) in *.
  assert (GA : dict_get e8 k_abatement_amount = Some A)
    by (rewrite He8; get_set; reflexivity).
  assert (GB : dict_get e8 k_after_abatement = Some B)
    by (rewrite He8; get_set; reflexivity).
  assert (GN : dict_get e8 k_notes = Some (PStr (notes ++ micro_bic_note)))
    by (rewrite He8; get_set; reflexivity).
  exists notes.
  unfold special_rules. rewrite Hfc, Gtf, Htf, Hraw. cbn [bind]. cbv zeta.
  fold A B. rewrite (dict_set_same _ _ _ GA), (dict_set_same _ _ _ GB).
  unfold dict_get_default. rewrite GN. cbn [py_add_str bind].
  eexists. split; [reflexivity|]. split; [reflexivity|].
  split; [now rewrite dict_get_set, pystr_eqb_refl|].
  intros k Hk. now rewrite dict_get_set, Hk.
Qed.

(** ** From the validator to the feed *)

Lemma df_column_total (df : DataFrame) (column : pystr) :
  Forall (fun row => dict_mem row column = true) df ->
  exists values,
    df_column df column = Ok values /\ List.length values = List.length df.
Proof.
  induction 1 as [|row rest Hrow _ (values & IH & Hlen)].
  - now exists [].
  - cbn [df_column]. unfold dict_item, dict_mem in *.
    destruct (dict_get row column) as [v|]; [|discriminate Hrow].
    cbn [bind]. rewrite IH. cbn [bind].
    exists (v :: values). cbn [List.length]. now rewrite Hlen.
Qed.

(** X18.  The feed cannot be built from what the validator returns.  The
    frame made of the validated entries has both columns the filter of
    [create_json_output] reads, so no column is found missing; but as soon
    as there is one entry the filter raises [TypeError], and only the empty
    result gives a feed, the empty one. *)
Theorem no_feed_from_validated_entries (table : rates) (parsed_data : pyval)
    (valid : list (dict pyval)) (warns : list warning) :
  validate_and_clean_data table parsed_data = Ok (valid, warns) ->
  (exists france source,
      df_column valid k_taxable_france = Ok france
      /\ df_column valid k_taxable_source = Ok source)
  /\ create_json_output valid
     = match valid with [] => Ok [] | _ :: _ => Raise TypeError end.
Proof.
  intros H.
  assert (Hcols : Forall (fun e => dict_mem e k_taxable_france = true
                                   /\ dict_mem e k_taxable_source = true)
                    valid).
  { revert H. apply validated_entries_all. intros v e8 ws H.
    destruct (process_entry_some _ _ _ _ H)
      as (entry & e4 & w2 & _ & _ & _ & _ & _ & Hconv & Hspec & _).
    destruct (appended_entry_get _ _ _ _ _ Hconv Hspec)
      as (_ & _ & _ & Hfr & Hso & _).
    unfold dict_mem. now rewrite Hfr, Hso. }
  destruct (df_column_total valid k_taxable_france) as (france & Hf & Hlf).
  { eapply Forall_impl; [|exact Hcols]. now intros e [? _]. }
  destruct (df_column_total valid k_taxable_source) as (source & Hs & Hls).
  { eapply Forall_impl; [|exact Hcols]. now intros e [_ ?]. }
  split; [now exists france, source|].
  unfold create_json_output. rewrite Hf, Hs. cbn [bind].
  destruct valid as [|e rest]; [reflexivity|].
  cbn [List.length Nat.eqb].
  destruct source as [|x source]; [discriminate Hls|]. reflexivity.
Qed.

(** ** What a warning says *)

Lemma warning_text_names (w : warning) :
  contains (format_value (warning_description w)) (warning_text w) = true.
Proof.
  destruct w; cbn [warning_description warning_text];
    repeat first [apply contains_self_app | apply contains_app_r].
Qed.

Lemma description_of_converted (table : rates) (e : dict pyval)
    (cur : pystr) (a : pyval) (e4 : dict pyval) (w2 : list warning) :
  convert_to_eur table e cur a = Ok (e4, w2) ->
  description_of e4 = description_of e
  /\ Forall (fun w => warning_description w = description_of e) w2.
Proof.
  unfold convert_to_eur.
  destruct (negb (pystr_eqb cur (u "EUR")));
    [destruct (dict_get table cur) as [rate|];
     [destruct (float_truthy rate);
      [destruct (py_mul_float a rate); cbn [bind]|]|]|];
    intros [= <- <-] || discriminate;
    (split; [apply description_of_eq; get_set; reflexivity
            |repeat constructor]).
Qed.

Lemma description_of_clean (field : pystr) (e : dict pyval) :
  pystr_eqb field k_description = false ->
  description_of (fst (clean_taxable_field field e)) = description_of e
  /\ Forall (fun w => warning_description w = description_of e)
       (snd (clean_taxable_field field e)).
Proof.
  intros Hf. unfold clean_taxable_field.
  assert (Hset : forall v, description_of (dict_set e field v)
                           = description_of e).
  { intros v. apply description_of_eq. now rewrite dict_get_set, Hf. }
  destruct (dict_get e field) as [v|]; [|split; [apply Hset|constructor]].
  destruct v as [|b|z|x|s|l|d]; cbn [is_empty_str fst snd];
    try (split; [reflexivity|constructor]).
  destruct s as [|c s]; [split; [apply Hset|constructor]|].
  destruct (to_number (c :: s)); cbn [fst snd];
    (split; [apply Hset|repeat constructor]).
Qed.

(** X19.  Every warning is about the entry of its turn: the description it
    quotes is the one of that entry as it was parsed ([Unknown] when the
    entry has none), and the text of the warning shows it. *)
Theorem every_warning_names_its_entry (table : rates) (entry : dict pyval)
    (kept : option (dict pyval)) (ws : list warning) :
  process_entry table (PDict entry) = Ok (kept, ws) ->
  Forall (fun w =>
            warning_description w = description_of entry
            /\ contains (format_value (description_of entry))
                 (warning_text w) = true) ws.
Proof.
  intros H.
  cut (Forall (fun w => warning_description w = description_of entry) ws).
  { apply Forall_impl. intros w Hw. split; [exact Hw|].
    rewrite <- Hw. apply warning_text_names. }
  destruct kept as [e8|].
  - destruct (process_entry_some _ _ _ _ H)
      as (entry' & e4 & w2 & [= <-] & _ & _ & _ & _ & Hconv & _ & ->).
    destruct (description_of_converted _ _ _ _ _ _ Hconv) as [Hd4 Hw2].
    rewrite description_of_normalized in Hd4, Hw2.
    destruct (description_of_clean k_taxable_france e4 eq_refl)
      as [Hd5 Hw3].
    destruct (description_of_clean k_taxable_source
                (fst (clean_taxable_field k_taxable_france e4)) eq_refl)
      as [Hd6 Hw4].
    rewrite Hd4 in Hd5, Hw3. rewrite Hd5 in Hd6, Hw4.
    repeat (apply Forall_app; split); try assumption.
    + destruct (dict_get_default entry k_amount_source (PInt 0));
        try constructor.
      cbn [coerce_source_amount]. destruct (to_number s); repeat constructor.
    + unfold cleaned, classify_code.
      destruct (dict_get TAX_CODES (form_of entry)) as [codes|];
        [destruct (dict_get codes (code_of entry))|]; cbn [snd];
        repeat constructor; exact Hd6.
  - destruct (process_entry_none _ _ _ H) as (entry' & [= <-] & _ & ->).
    repeat constructor.
Qed.

End Pipeline.

(** * Sample runs *)







(** * Where the code departs from the specification *)




(** C9.  The byte FF between an A and a B is left out of the text of a
    [.txt] document; decoding with replacement puts U+FFFD in its place. *)
Lemma undecodable_byte_is_left_out :
  (forall read_with_library,
      extract_text_from_file read_with_library (u ".txt") [x41; xff; x42]
      = u "AB")
  /\ decode_utf8_replace (map Byte.to_N [x41; xff; x42])
     = [65; replacement_character; 66]%N
  /\ u "AB" <> [65; replacement_character; 66]%N.
Proof.
  split; [|split].
  - intros read_with_library. reflexivity.
  - reflexivity.
  - vm_compute. discriminate.
Qed.

(** * More sample runs *)

(** The outcome of the validator on a closed list, by evaluation; the run
    is kept as [Hrun]. *)
Ltac run_validator :=
  lazymatch goal with
  | |- exists valid warns, ?run = Ok (valid, warns) /\ _ =>
      let r := eval vm_compute in run in
      lazymatch r with
      | Ok (?v, ?w) =>
          assert (Hrun : run = Ok (v, w)) by (vm_compute; reflexivity);
          exists v, w; split; [exact Hrun|]
      end
  end.

(** The same for one turn of the loop. *)
Ltac run_turn :=
  lazymatch goal with
  | |- exists entry' warns, ?run = Ok (Some entry', warns) /\ _ =>
      let r := eval vm_compute in run in
      lazymatch r with
      | Ok (Some ?e, ?w) =>
          assert (Hrun : run = Ok (Some e, w)) by (vm_compute; reflexivity);
          exists e, w; split; [exact Hrun|]
      end
  end.

(** X1, on a lone object where a list is expected. *)
Lemma lone_object_run :
  exists e,
    validate_and_clean_data ascii_only_upper float_of_plain_decimal
      default_rates (PDict pension_entry) = Raise e.
Proof.
  exact (validator_wants_a_list ascii_only_upper float_of_plain_decimal
           default_rates (PDict pension_entry)
           ltac:(intros entries; discriminate)).
Defined.

(** X3, on a list whose second entry has a number for its form. *)
Lemma numeric_form_run :
  exists e,
    validate_and_clean_data ascii_only_upper float_of_plain_decimal
      default_rates (PList [PDict pension_entry; PDict numeric_form_entry])
    = Raise e.
Proof.
  apply (one_bad_entry_aborts_the_run ascii_only_upper
           float_of_plain_decimal default_rates
           [PDict pension_entry; PDict numeric_form_entry]
           (PDict numeric_form_entry) AttributeError).
  - right. left. reflexivity.
  - vm_compute. reflexivity.
Defined.

(** X4, on the pension and the entry without a code: one is kept, one
    reported. *)
Lemma kept_and_reported_run :
  exists valid warns,
    validate_and_clean_data ascii_only_upper float_of_plain_decimal
      default_rates (PList [PDict pension_entry; PDict codeless_entry])
    = Ok (valid, warns)
    /\ (List.length valid + List.length (filter is_missing_warning warns)
        = 2)%nat.
Proof.
  run_validator.
  exact (every_entry_is_kept_or_reported _ _ _ _ _ _ Hrun).
Defined.

(** X5, on the untidy entry. *)
Lemma untidy_entry_fields :
  exists valid warns,
    validate_and_clean_data ascii_only_upper float_of_plain_decimal
      default_rates (PList [PDict untidy_entry]) = Ok (valid, warns)
    /\ Forall (fun e =>
                 forall k, In k (required_fields ++ derived_fields) ->
                           dict_mem e k = true) valid.
Proof.
  run_validator.
  exact (validated_entries_have_all_fields _ _ _ _ _ _ Hrun).
Defined.

(** X6, on the pension and the entry with an unknown code. *)
Lemma validity_flags_run :
  exists valid warns,
    validate_and_clean_data ascii_only_upper float_of_plain_decimal
      default_rates (PList [PDict pension_entry; PDict unknown_code_entry])
    = Ok (valid, warns)
    /\ Forall (fun e =>
                 exists form code,
                   dict_get e k_form = Some (PStr form)
                   /\ dict_get e k_code = Some (PStr code)
                   /\ match reference_description form code with
                      | Some description =>
                          dict_get e k_valid_code = Some (PBool true)
                          /\ dict_get e k_code_description
                             = Some (PStr description)
                      | None =>
                          dict_get e k_valid_code = Some (PBool false)
                          /\ dict_get e k_code_description = Some (PStr [])
                      end) valid.
Proof.
  run_validator.
  exact (validity_flag_agrees_with_the_table _ _ _ _ _ _ Hrun).
Defined.

(** X7, on the untidy entry: the form comes out as 2042, the code as 2DC,
    the amount as a number and the taxable amount as the blank. *)
Lemma untidy_entry_normalized :
  exists valid warns,
    validate_and_clean_data ascii_only_upper float_of_plain_decimal
      default_rates (PList [PDict untidy_entry]) = Ok (valid, warns)
    /\ Forall (fun e =>
                 exists form code,
                   dict_get e k_form = Some (PStr form)
                   /\ dict_get e k_code = Some (PStr code)
                   /\ strip form = form
                   /\ Forall (fun c => is_digit_or_capital c = true) code
                   /\ normalize_code ascii_only_upper code = code
                   /\ field_is (fun v => negb (is_str v)) e k_amount_source
                      = true
                   /\ field_is blank_or_not_str e k_taxable_france = true
                   /\ field_is blank_or_not_str e k_taxable_source = true)
         valid.
Proof.
  run_validator.
  exact (validated_entries_are_normalized _ _ _ _ _ _ Hrun).
Defined.

(** X8, on the bank interest of the prompt. *)
Lemma bank_interest_run :
  exists entry',
    process_entry ascii_only_upper float_of_plain_decimal default_rates
      (PDict bank_interest_row) = Ok (Some entry', []).
Proof.
  apply (clean_entry_gives_no_warning ascii_only_upper
           float_of_plain_decimal default_rates bank_interest_row);
    try (vm_compute; reflexivity).
  vm_compute. discriminate.
Defined.

(** X10, on the untidy entry: the currency stays in small letters and the
    field of the entry's own is handed on. *)
Lemma untidy_entry_other_fields :
  exists entry' warns,
    process_entry ascii_only_upper float_of_plain_decimal default_rates
      (PDict untidy_entry) = Ok (Some entry', warns)
    /\ dict_get entry' k_source_currency = Some (PStr (u "usd"))
    /\ dict_get entry' (u "Country") = Some (PStr (u "US")).
Proof.
  run_turn.
  destruct (other_fields_are_left_alone _ _ _ _ _ _ Hrun)
    as (entry & Hentry & Hother & _ & Hcur).
  injection Hentry as <-. split.
  - rewrite Hcur. vm_compute. reflexivity.
  - rewrite Hother by (vm_compute; reflexivity). vm_compute. reflexivity.
Defined.

(** X13, on the empty array between a blank and a line end. *)
Lemma padded_array_parse :
  safe_parse_json loads_empty_array no_match no_match
    (Some (u " " ++ u "[]" ++ newline))
  = safe_parse_json loads_empty_array no_match no_match (Some (u "[]"))
  /\ safe_parse_json loads_empty_array no_match no_match
       (Some (u " " ++ newline)) = PList [].
Proof.
  apply (parse_ignores_padding loads_empty_array no_match no_match
           (u " ") newline (u "[]")); vm_compute; reflexivity.
Defined.


(** X16, on the pension, the entry without a code and the entry with an
    unknown code: the two entries that were kept come back as they are,
    with the warning about the code and without the one about the missing
    field. *)
Lemma validated_twice_run :
  exists valid warns,
    validate_and_clean_data ascii_only_upper float_of_plain_decimal
      default_rates
      (PList [PDict pension_entry; PDict codeless_entry;
              PDict unknown_code_entry]) = Ok (valid, warns)
    /\ validate_and_clean_data ascii_only_upper float_of_plain_decimal
         default_rates (PList (map PDict valid))
       = Ok (valid, filter lasting_warning warns).
Proof.
  run_validator.
  apply (validating_again_changes_nothing _ _ _ _ _ _ Hrun).
  repeat constructor.
Defined.

(** X17, on the chambre d'hôte income of the prompt. *)
Lemma chambre_dhote_twice :
  exists entry' warns,
    process_entry ascii_only_upper float_of_plain_decimal default_rates
      (PDict chambre_dhote_entry) = Ok (Some entry', warns)
    /\ exists notes entry'',
         dict_get entry' k_notes = Some (PStr (notes ++ micro_bic_note))
         /\ process_entry ascii_only_upper float_of_plain_decimal
              default_rates (PDict entry')
            = Ok (Some entry'', filter lasting_warning warns)
         /\ dict_get entry'' k_notes
            = Some (PStr ((notes ++ micro_bic_note) ++ micro_bic_note)).
Proof.
  run_turn.
  destruct (micro_bic_note_is_appended_again _ _ _ _ _ _ Hrun
              ltac:(vm_compute; reflexivity))
    as (notes & e9 & Hn & Hagain & Hn9 & _).
  exists notes, e9. repeat split; assumption.
Defined.

(** X18, on the pension. *)
Lemma pension_feed :
  exists valid warns,
    validate_and_clean_data ascii_only_upper float_of_plain_decimal
      default_rates (PList [PDict pension_entry]) = Ok (valid, warns)
    /\ create_json_output str_of_constant no_feed valid = Raise TypeError.
Proof.
  run_validator.
  exact (proj2 (no_feed_from_validated_entries _ _ str_of_constant no_feed
                  _ _ _ _ Hrun)).
Defined.

(** X19, on the untidy entry, whose taxable amount is no number: the
    warning quotes the description of the entry. *)
Lemma untidy_entry_warnings :
  exists entry' warns,
    process_entry ascii_only_upper float_of_plain_decimal default_rates
      (PDict untidy_entry) = Ok (Some entry', warns)
    /\ warns <> []
    /\ Forall (fun w =>
                 warning_description w = PStr (u "Dividends")
                 /\ contains (u "Dividends")
                      (warning_text str_of_constant w) = true) warns.
Proof.
  run_turn. split; [discriminate|].
  exact (every_warning_names_its_entry ascii_only_upper
           float_of_plain_decimal str_of_constant default_rates
           untidy_entry _ _ Hrun).
Defined.
